(** * Lunch Management System: attendance cutoff and chef notification

    A shallow embedding of [backend_server.py]: the attendance submission
    handler [mark_attendance], the attendance query [get_user_attendance]
    and the scheduled job [send_chef_notification] with its helper
    [send_email_notification], together with the parts of Python's
    [datetime] module they rely on.  Handlers are written in a small
    state-and-exception monad over the database, the logger and the
    e-mail gateway. *)

From Stdlib Require Import ZArith String Ascii List Bool Lia DecimalString.
From stdpp Require Import base list strings sorting.

Local Open Scope string_scope.
Local Open Scope list_scope.
Local Open Scope Z_scope.

(** ** Python's [datetime.date] *)

Module PyDate.

Record date := Date { year : Z; month : Z; day : Z }.

Definition MAXORDINAL : Z := 3652059.   (* date(9999, 12, 31).toordinal() *)

Definition DAYS_IN_MONTH : list Z :=
  [-1; 31; 28; 31; 30; 31; 30; 31; 31; 30; 31; 30; 31].

Definition DAYS_BEFORE_MONTH : list Z :=
  [-1; 0; 31; 59; 90; 120; 151; 181; 212; 243; 273; 304; 334].

Definition DI400Y : Z := 146097.
Definition DI100Y : Z := 36524.
Definition DI4Y : Z := 1461.

Definition index (tbl : list Z) (i : Z) : Z := nth (Z.to_nat i) tbl (-1).

Definition is_leap (y : Z) : bool :=
  (y mod 4 =? 0) && (negb (y mod 100 =? 0) || (y mod 400 =? 0)).

Definition days_before_year (y : Z) : Z :=
  let y := y - 1 in y * 365 + y / 4 - y / 100 + y / 400.

Definition days_in_month (y m : Z) : Z :=
  if (m =? 2) && is_leap y then 29 else index DAYS_IN_MONTH m.

Definition days_before_month (y m : Z) : Z :=
  index DAYS_BEFORE_MONTH m + (if (2 <? m) && is_leap y then 1 else 0).

Definition ymd2ord (y m d : Z) : Z :=
  days_before_year y + days_before_month y m + d.

Definition ord2ymd (n : Z) : date :=
  let n := n - 1 in
  let n400 := n / DI400Y in let n := n mod DI400Y in
  let y := n400 * 400 + 1 in
  let n100 := n / DI100Y in let n := n mod DI100Y in
  let n4 := n / DI4Y in let n := n mod DI4Y in
  let n1 := n / 365 in let n := n mod 365 in
  let y := y + n100 * 100 + n4 * 4 + n1 in
  if (n1 =? 4) || (n100 =? 4) then Date (y - 1) 12 31
  else
    let leapyear := (n1 =? 3) && (negb (n4 =? 24) || (n100 =? 3)) in
    let m := Z.shiftr (n + 50) 5 in
    let preceding :=
      index DAYS_BEFORE_MONTH m + (if (2 <? m) && leapyear then 1 else 0) in
    if n <? preceding then
      let m := m - 1 in
      let preceding :=
        preceding
        - (index DAYS_IN_MONTH m + (if (m =? 2) && leapyear then 1 else 0)) in
      Date y m (n - preceding + 1)
    else Date y m (n - preceding + 1).

(** [date(y, m, d)] accepts exactly these field values. *)
Definition valid (d : date) : bool :=
  (1 <=? year d) && (year d <=? 9999) &&
  (1 <=? month d) && (month d <=? 12) &&
  (1 <=? day d) && (day d <=? days_in_month (year d) (month d)).

Definition toordinal (d : date) : Z := ymd2ord (year d) (month d) (day d).

(** [d.weekday()]: Monday is 0, Sunday is 6. *)
Definition weekday (d : date) : Z := (toordinal d + 6) mod 7.

(** [d + timedelta(days=k)]; [None] is [OverflowError]. *)
Definition add_days (d : date) (k : Z) : option date :=
  let o := toordinal d + k in
  if (0 <? o) && (o <=? MAXORDINAL) then Some (ord2ymd o) else None.

(** [d1 == d2] and the ordering of dates compare the field triples. *)
Definition eqb (a b : date) : bool :=
  (year a =? year b) && (month a =? month b) && (day a =? day b).

Definition cmp (a b : date) : comparison :=
  match year a ?= year b with
  | Eq => match month a ?= month b with
          | Eq => day a ?= day b
          | c => c
          end
  | c => c
  end.

Definition leb (a b : date) : bool :=
  match cmp a b with Gt => false | _ => true end.

(** Decimal rendering of integers, as [str(n)] and ["%0wd" % n]. *)
Definition str_int (n : Z) : string := NilZero.string_of_int (Z.to_int n).

Fixpoint zeros (k : nat) : string :=
  match k with O => "" | S k => "0" +:+ zeros k end.

Definition zfill (w : nat) (n : Z) : string :=
  let s := str_int n in
  if n <? 0 then s else zeros (w - String.length s) +:+ s.

(** [str(d)], that is [d.isoformat()]. *)
Definition isoformat (d : date) : string :=
  zfill 4 (year d) +:+ "-" +:+ zfill 2 (month d) +:+ "-" +:+ zfill 2 (day d).

Definition MONTH_NAMES : list string :=
  [""; "January"; "February"; "March"; "April"; "May"; "June"; "July";
   "August"; "September"; "October"; "November"; "December"].

(** [d.strftime('%B %d, %Y')] in the C locale.  *)
Definition strftime_B_d_Y (d : date) : string :=
  nth (Z.to_nat (month d)) MONTH_NAMES "" +:+ " " +:+ zfill 2 (day d)
  +:+ ", " +:+ zfill 4 (year d).

End PyDate.

Export PyDate.

(** ** Python's [datetime.datetime] (naive) *)

Record datetime := DateTime {
  dt_date : date; hour : Z; minute : Z; second : Z; microsecond : Z }.

(** [t.replace(hour=h, minute=m, second=s, microsecond=us)] *)
Definition dt_replace (t : datetime) (h m s us : Z) : datetime :=
  DateTime (dt_date t) h m s us.

Definition lex (c1 c2 : comparison) : comparison :=
  match c1 with Eq => c2 | _ => c1 end.

(** Naive datetimes compare as the tuples
    (year, month, day, hour, minute, second, microsecond). *)
Definition dt_cmp (a b : datetime) : comparison :=
  lex (PyDate.cmp (dt_date a) (dt_date b))
   (lex (hour a ?= hour b)
     (lex (minute a ?= minute b)
       (lex (second a ?= second b) (microsecond a ?= microsecond b)))).

Definition dt_gtb (a b : datetime) : bool :=
  match dt_cmp a b with Gt => true | _ => false end.

(** [t.strftime('%I:%M %p')] in the C locale. *)
Definition strftime_I_M_p (t : datetime) : string :=
  let h12 := if hour t mod 12 =? 0 then 12 else hour t mod 12 in
  zfill 2 h12 +:+ ":" +:+ zfill 2 (minute t) +:+ " "
  +:+ (if hour t <? 12 then "AM" else "PM").

(** Microseconds since midnight, for stating properties of the time of day. *)
Definition micros_of_day (t : datetime) : Z :=
  ((hour t * 60 + minute t) * 60 + second t) * 1000000 + microsecond t.

Definition valid_time (t : datetime) : Prop :=
  0 <= hour t < 24 /\ 0 <= minute t < 60 /\ 0 <= second t < 60 /\
  0 <= microsecond t < 1000000.

(** ** Tables *)

(** Modelled from the spec: the table definitions are not part of the source
    files.  The spec's data model gives an attendance record as (user
    identifier, date, status, last-marked timestamp), unique per (user,
    date); a notification entry carries the five inserted columns.  The
    surrogate [id] columns and the creation timestamps of [users] and
    [notifications] are left out. *)
Record attendance_row := AttendanceRow {
  a_user_id : Z; a_date : date; a_status : string; a_marked_at : Z }.

Record user_row := UserRow {
  u_id : Z; u_email : string; u_name : string; u_role : string;
  u_is_active : Z }.

Record notification_row := NotificationRow {
  n_type : string; n_recipient_email : string; n_content : string;
  n_office_count : Z; n_status : string }.

Record database := Database {
  attendance : list attendance_row;
  users : list user_row;
  notifications : list notification_row }.

(** ** The world outside the process *)

Inductive level := INFO | WARNING | ERROR.

Record mail := Mail { m_to : string; m_subject : string; m_body : string }.

(** What [requests.post] produces: a response, or an exception. *)
Inductive reply :=
| Response (status_code : Z) (text : string)
| PostRaises (msg : string).

(** The inputs of one handler call that the code reads but does not own. *)
Record env := Env {
  today : date;                       (* date.today() *)
  now : datetime;                     (* datetime.now() *)
  CURRENT_TIMESTAMP : Z;              (* the database server's clock *)
  db_fault : nat -> option string;    (* does the k-th database call fail? *)
  BREVO_API_KEY : option string;      (* os.getenv("BREVO_API_KEY") *)
  gateway : nat -> mail -> reply      (* answer to the k-th HTTP post *)
}.

(** The state a handler acts on.  [committed] is the durable content of the
    database, [session] the view of the open connection (autocommit is off:
    statements change [session], [commit] publishes it, closing the
    connection drops what was not committed).  [ops] counts database calls,
    [log] holds the logger's records and [outbox] the HTTP posts made, both
    oldest first. *)
Record state := State {
  committed : database;
  session : database;
  ops : nat;
  log : list (level * string);
  outbox : list mail }.

(** ** Exceptions and the handler monad *)

Inductive exn :=
| HTTPException (status_code : Z) (detail : string)
| Error (msg : string)                 (* mysql.connector.Error *)
| ValueError (msg : string)
| OverflowError (msg : string)
| RequestException (msg : string).

Definition str_exn (e : exn) : string :=
  match e with
  | HTTPException _ d => d
  | Error m | ValueError m | OverflowError m | RequestException m => m
  end.

Inductive result (A : Type) :=
| Ok (a : A)
| Raise (e : exn).
Arguments Ok {A} a.
Arguments Raise {A} e.

Definition M (A : Type) : Type := state -> result A * state.

Definition ret {A} (a : A) : M A := fun s => (Ok a, s).

Definition raise {A} (e : exn) : M A := fun s => (Raise e, s).

Definition bind {A B} (m : M A) (k : A -> M B) : M B := fun s =>
  match m s with
  | (Ok a, s') => k a s'
  | (Raise e, s') => (Raise e, s')
  end.

Notation "x <- m ;; k" := (bind m (fun x => k))
  (at level 100, m at next level, right associativity).
Notation "m ;; k" := (bind m (fun _ => k))
  (at level 100, right associativity).

(** [try: m except <those e with h e = Some _>: handler] *)
Definition try_except {A} (m : M A) (h : exn -> option (M A)) : M A := fun s =>
  match m s with
  | (Ok a, s') => (Ok a, s')
  | (Raise e, s') =>
      match h e with
      | Some handler => handler s'
      | None => (Raise e, s')
      end
  end.

(** [try: m finally: f] *)
Definition finally {A} (m : M A) (f : M unit) : M A := fun s =>
  match m s with
  | (r, s') =>
      match f s' with
      | (Ok _, s'') => (r, s'')
      | (Raise e, s'') => (Raise e, s'')
      end
  end.

Fixpoint for_each {A} (l : list A) (body : A -> M unit) : M unit :=
  match l with
  | [] => ret tt
  | x :: l' => body x ;; for_each l' body
  end.

Definition logger (lv : level) (msg : string) : M unit := fun s =>
  (Ok tt, State (committed s) (session s) (ops s) (log s ++ [(lv, msg)])
                (outbox s)).

Definition tick (s : state) : state :=
  State (committed s) (session s) (S (ops s)) (log s) (outbox s).

Definition with_session (d : database) (s : state) : state :=
  State (committed s) d (ops s) (log s) (outbox s).

(** ** Database calls *)

(** [mysql.connector.connect(...)]: a fresh connection sees the committed
    data. *)
Definition connect (e : env) : M unit := fun s =>
  match db_fault e (ops s) with
  | Some msg => (Raise (Error msg), tick s)
  | None => (Ok tt, with_session (committed s) (tick s))
  end.

(** [cursor.execute(...)] followed by the fetch, where there is one: the
    statement [q] runs on the connection's view. *)
Definition execute {A} (e : env) (q : database -> result A * database)
  : M A := fun s =>
  match db_fault e (ops s) with
  | Some msg => (Raise (Error msg), tick s)
  | None => let '(r, d) := q (session s) in (r, with_session d (tick s))
  end.

(** [connection.commit()] *)
Definition commit (e : env) : M unit := fun s =>
  match db_fault e (ops s) with
  | Some msg => (Raise (Error msg), tick s)
  | None =>
      (Ok tt, State (session s) (session s) (S (ops s)) (log s) (outbox s))
  end.

(** [connection.rollback()] *)
Definition rollback : M unit := fun s =>
  (Ok tt, with_session (committed s) s).

(** [cursor.close(); connection.close()]: what was not committed is gone. *)
Definition close : M unit := fun s =>
  (Ok tt, with_session (committed s) s).

Definition get_db_connection (e : env) : M unit :=
  try_except (connect e)
    (fun ex =>
       match ex with
       | Error msg =>
           Some (logger ERROR ("Database connection error: " +:+ msg) ;;
                 raise (HTTPException 500 "Database connection failed"))
       | _ => None
       end).

(** ** SQL statements *)

Definition same_key (u : Z) (d : date) (r : attendance_row) : bool :=
  (a_user_id r =? u) && PyDate.eqb (a_date r) d.

(** Modelled from the spec: the attendance table's definition is missing
    from the source; the spec states that a record is unique per (user,
    date), which is the duplicate key of the statement
    [INSERT INTO attendance (user_id, date, status) VALUES (u, d, st)
     ON DUPLICATE KEY UPDATE status = st, marked_at = CURRENT_TIMESTAMP].
    A new row takes the server's clock as [marked_at]. *)
Definition upsert_attendance (ts : Z) (u : Z) (d : date) (st : string)
    (t : list attendance_row) : list attendance_row :=
  if existsb (same_key u d) t then
    map (fun r => if same_key u d r
                  then AttendanceRow (a_user_id r) (a_date r) st ts
                  else r) t
  else t ++ [AttendanceRow u d st ts].

Definition sql_upsert_attendance (e : env) (u : Z) (d : date) (st : string)
  : database -> result unit * database := fun db =>
  (Ok tt, Database (upsert_attendance (CURRENT_TIMESTAMP e) u d st
                      (attendance db))
                   (users db) (notifications db)).

(** [SELECT COUNT( * ) FROM attendance WHERE date = d AND status = 'office'] *)
Definition count_office (d : date) (t : list attendance_row) : Z :=
  Z.of_nat (length (List.filter
    (fun r => PyDate.eqb (a_date r) d && String.eqb (a_status r) "office")
    t)).

Definition sql_count_office (d : date)
  : database -> result Z * database := fun db =>
  (Ok (count_office d (attendance db)), db).

(** [SELECT email FROM users WHERE role = 'chef' AND is_active = 1] *)
Definition active_chefs (t : list user_row) : list string :=
  map u_email (List.filter
    (fun u => String.eqb (u_role u) "chef" && (u_is_active u =? 1)) t).

Definition sql_select_chefs
  : database -> result (list string) * database := fun db =>
  (Ok (active_chefs (users db)), db).

(** [INSERT INTO notifications (type, recipient_email, content,
     office_count, status) VALUES (...)] *)
Definition sql_insert_notification (r : notification_row)
  : database -> result unit * database := fun db =>
  (Ok tt, Database (attendance db) (users db) (notifications db ++ [r])).

(** ** Helpers of the handlers *)

Definition is_weekend (check_date : date) : bool :=
  5 <=? weekday check_date.

Definition is_after_cutoff_time (e : env) : bool :=
  let now := now e in
  let cutoff := dt_replace now 21 30 0 0 in
  dt_gtb now cutoff.

(** Python's truth value of an optional string: [None] and [""] are false. *)
Definition truthy (o : option string) : bool :=
  match o with
  | Some s => negb (String.eqb s "")
  | None => false
  end.

(** [requests.post(...)]: the request goes out, the gateway answers. *)
Definition requests_post (e : env) (m : mail) : M (Z * string) := fun s =>
  let s' := State (committed s) (session s) (ops s) (log s)
                  (outbox s ++ [m]) in
  match gateway e (length (outbox s)) m with
  | Response code text => (Ok (code, text), s')
  | PostRaises msg => (Raise (RequestException msg), s')
  end.

Definition send_email_notification (e : env)
    (recipient_email subject body : string) : M bool :=
  try_except
    (if negb (truthy (BREVO_API_KEY e)) then
       logger WARNING "Brevo API key not configured" ;;
       ret false
     else
       response <- requests_post e (Mail recipient_email subject body) ;;
       if existsb (Z.eqb (fst response)) [200; 201; 202] then
         logger INFO ("Email sent to " +:+ recipient_email) ;;
         ret true
       else
         logger ERROR ("Failed to send email to " +:+ recipient_email
                       +:+ ": " +:+ snd response) ;;
         ret false)
    (fun ex =>
       Some (logger ERROR ("Error in Brevo email send: " +:+ str_exn ex) ;;
             ret false)).

(** ** The handlers *)

Record AttendanceRequest := { req_date : string; req_status : string }.

Record AttendanceReply := { resp_message : string; resp_date : string }.

Definition MSG_ROLLED_OVER : string :=
  "Cutoff time passed. Attendance marked for tomorrow.".
Definition MSG_MARKED : string := "Attendance marked successfully.".

Definition LF : string := String (ascii_of_nat 10) EmptyString.

Inductive condition :=
| UserIdEq (u : Z)
| DateGe (literal : string)
| DateLe (literal : string).

Definition date_desc (r1 r2 : attendance_row) : Prop :=
  PyDate.leb (a_date r2) (a_date r1) = true.

#[global] Instance date_desc_dec r1 r2 : Decision (date_desc r1 r2).
Proof. unfold date_desc. apply _. Defined.

(** The block [# Insert/Update attendance] that ends [mark_attendance]:
    connection, statement, commit, and the handlers of its [try]. *)
Definition insert_update_attendance (e : env) (user_id : Z)
    (attendance_date : date) (status message : string) : M AttendanceReply :=
  get_db_connection e ;;
  finally
    (try_except
       (execute e (sql_upsert_attendance e user_id attendance_date status) ;;
        commit e ;;
        ret {| resp_message := message;
               resp_date := isoformat attendance_date |})
       (fun ex =>
          match ex with
          | Error msg =>
              Some (rollback ;;
                    raise (HTTPException 500
                             ("Failed to mark attendance: " +:+ msg)))
          | _ => None
          end))
    close.

Section Handlers.

(** [datetime.strptime(s, "%Y-%m-%d").date()]; [None] is [ValueError]. *)
Variable strptime_ymd : string -> option date.

(** The database server's reading of a string as a DATE value; [None]
    when the string is not one. *)
Variable sql_date : string -> option date.

Definition mark_attendance (e : env) (attendance : AttendanceRequest)
    (user_id : Z) : M AttendanceReply :=
  attendance_date <-
    try_except
      (match strptime_ymd (req_date attendance) with
       | Some d => ret d
       | None => raise (ValueError "does not match format")
       end)
      (fun ex =>
         match ex with
         | ValueError _ =>
             Some (raise (HTTPException 400 "Invalid date format"))
         | _ => None
         end) ;;
  if is_weekend attendance_date then
    raise (HTTPException 400 "Cannot mark attendance on weekends")
  else
    let today := today e in
    resolved <-
      (if PyDate.eqb attendance_date today && is_after_cutoff_time e then
         match add_days today 1 with
         | Some tomorrow => ret (tomorrow, MSG_ROLLED_OVER)
         | None => raise (OverflowError "date value out of range")
         end
       else ret (attendance_date, MSG_MARKED)) ;;
    let attendance_date := fst resolved in
    let message := snd resolved in
    insert_update_attendance e user_id attendance_date
      (req_status attendance) message.

Definition eval_condition (c : condition) (r : attendance_row)
  : option bool :=
  match c with
  | UserIdEq u => Some (a_user_id r =? u)
  | DateGe lit => (fun d => PyDate.leb d (a_date r)) <$> sql_date lit
  | DateLe lit => (fun d => PyDate.leb (a_date r) d) <$> sql_date lit
  end.

Definition well_formed (c : condition) : bool :=
  match c with
  | UserIdEq _ => true
  | DateGe lit | DateLe lit => bool_decide (is_Some (sql_date lit))
  end.

Definition row_matches (cs : list condition) (r : attendance_row) : bool :=
  forallb (fun c => match eval_condition c r with
                    | Some b => b
                    | None => false
                    end) cs.

(** [SELECT * FROM attendance WHERE <cs> ORDER BY date DESC]; a
    comparison of the date column with a string that is no date is an
    error of the statement. *)
Definition sql_select_attendance (cs : list condition)
  : database -> result (list attendance_row) * database := fun db =>
  if forallb well_formed cs then
    (Ok (merge_sort date_desc (List.filter (row_matches cs) (attendance db))),
     db)
  else (Raise (Error "Incorrect DATE value"), db).

Definition get_user_attendance (e : env) (user_id : Z)
    (start_date end_date : option string) : M (list attendance_row) :=
  get_db_connection e ;;
  finally
    (let query := [UserIdEq user_id] in
     let query :=
       match start_date with
       | Some lit => if truthy start_date then (query ++ [DateGe lit])%list
                     else query
       | None => query
       end in
     let query :=
       match end_date with
       | Some lit => if truthy end_date then (query ++ [DateLe lit])%list
                     else query
       | None => query
       end in
     attendance_records <- execute e (sql_select_attendance query) ;;
     ret attendance_records)
    close.

End Handlers.

Definition subject_of (today : date) : string :=
  "Daily Lunch Count - " +:+ strftime_B_d_Y today.

Definition body_template_of (today : date) (now : datetime)
    (office_count : Z) : string :=
  LF +:+ "Dear Chef," +:+ LF +:+ LF
  +:+ "Today's office attendance count: " +:+ str_int office_count
  +:+ " employees" +:+ LF +:+ LF
  +:+ "Please prepare lunch accordingly." +:+ LF +:+ LF
  +:+ "Date: " +:+ strftime_B_d_Y today +:+ LF
  +:+ "Time: " +:+ strftime_I_M_p now +:+ LF +:+ LF
  +:+ "Best regards," +:+ LF
  +:+ "Lunch Management System" +:+ LF.

(** The body of the loop over [chef_results]. *)
Definition notify_chef (e : env) (subject body_template : string)
    (office_count : Z) (chef : string) : M unit :=
  let chef_email := chef in
  email_sent <- send_email_notification e chef_email subject body_template ;;
  execute e (sql_insert_notification
               (NotificationRow "daily_count" chef_email body_template
                  office_count (if email_sent then "sent" else "failed"))).

Definition send_chef_notification (e : env) : M unit :=
  let today := today e in
  if is_weekend today then
    logger INFO "Skipping chef notification - weekend"
  else
    get_db_connection e ;;
    finally
      (try_except
         (office_count <- execute e (sql_count_office today) ;;
          chef_results <- execute e sql_select_chefs ;;
          match chef_results with
          | _ :: _ =>
              let subject := subject_of today in
              let body_template :=
                body_template_of today (now e) office_count in
              for_each chef_results
                (notify_chef e subject body_template office_count) ;;
              commit e ;;
              logger INFO ("Chef notifications sent to "
                           +:+ str_int (Z.of_nat (length chef_results))
                           +:+ " chef(s)")
          | [] => logger WARNING "No active chefs found for notification"
          end)
         (fun ex =>
            Some (logger ERROR ("Failed to send chef notifications: "
                                +:+ str_exn ex))))
      close.

(** A reader of dates written exactly as [YYYY-MM-DD] with ASCII digits,
    on which every reader of dates agrees; the handlers are run with it
    in the examples below. *)
Definition digit (c : ascii) : option Z :=
  let n := Z.of_nat (nat_of_ascii c) in
  if (48 <=? n) && (n <=? 57) then Some (n - 48) else None.

Definition iso_date (s : string) : option date :=
  match s with
  | String y1 (String y2 (String y3 (String y4 (String "-"
      (String m1 (String m2 (String "-"
        (String d1 (String d2 EmptyString))))))))) =>
      match digit y1, digit y2, digit y3, digit y4,
            digit m1, digit m2, digit d1, digit d2 with
      | Some a, Some b, Some c, Some d, Some m, Some m', Some x, Some x' =>
          let r := Date (((a * 10 + b) * 10 + c) * 10 + d) (m * 10 + m')
                        (x * 10 + x') in
          if valid r then Some r else None
      | _, _, _, _, _, _, _, _ => None
      end
  | _ => None
  end.

(** ** Vocabulary of the properties *)

Definition CUTOFF_MICROS : Z := (21 * 60 + 30) * 60 * 1000000.

Definition available (e : env) : Prop := forall k, db_fault e k = None.

(** The outcome of a successful submission that ends up on [effective]:
    the reply carries [message] and the date, and the record is upserted
    under (user, [effective]). *)
Definition marked (strptime_ymd : string -> option date) (e : env)
    (req : AttendanceRequest) (user_id : Z) (effective : date)
    (message : string) (s : state) : Prop :=
  exists s',
    mark_attendance strptime_ymd e req user_id s
    = (Ok {| resp_message := message; resp_date := isoformat effective |},
       s')
    /\ attendance (committed s')
       = upsert_attendance (CURRENT_TIMESTAMP e) user_id effective
           (req_status req) (attendance (committed s)).

Definition key (r : attendance_row) : Z * date := (a_user_id r, a_date r).

Definition rows_for (u : Z) (d : date) (t : list attendance_row)
  : list attendance_row := List.filter (same_key u d) t.

(** One call of the store with its environment and status. *)
Definition upsert_call (u : Z) (d : date) (s : state) (c : env * string)
  : state := snd (insert_update_attendance (fst c) u d (snd c) MSG_MARKED s).

Definition run_calls (u : Z) (d : date) (calls : list (env * string))
    (s : state) : state := fold_left (upsert_call u d) calls s.

(** The records stored for (u, d) after each call of a sequence. *)
Fixpoint history (u : Z) (d : date) (calls : list (env * string))
    (s : state) : list (list attendance_row) :=
  match calls with
  | [] => []
  | c :: calls' =>
      let s' := upsert_call u d s c in
      rows_for u d (attendance (committed s')) :: history u d calls' s'
  end.

Definition configured (e : env) : bool := truthy (BREVO_API_KEY e).

(** Whether the k-th HTTP post, carrying [m], counts as sent. *)
Definition delivered (e : env) (k : nat) (m : mail) : bool :=
  configured e &&
  match gateway e k m with
  | Response code _ => existsb (Z.eqb code) [200; 201; 202]
  | PostRaises _ => false
  end.

Definition KEY_WARNING : level * string :=
  (WARNING, "Brevo API key not configured").

(** The logger's record of one send. *)
Definition send_log (e : env) (k : nat) (m : mail) : level * string :=
  if configured e then
    match gateway e k m with
    | Response code text =>
        if existsb (Z.eqb code) [200; 201; 202]
        then (INFO, "Email sent to " +:+ m_to m)
        else (ERROR, "Failed to send email to " +:+ m_to m +:+ ": " +:+ text)
    | PostRaises msg => (ERROR, "Error in Brevo email send: " +:+ msg)
    end
  else KEY_WARNING.

Definition posts (e : env) (subject body : string) (chefs : list string)
  : list mail :=
  if configured e then map (fun c => Mail c subject body) chefs else [].

Definition entry (e : env) (subject body : string) (count : Z) (k : nat)
    (chef : string) : notification_row :=
  NotificationRow "daily_count" chef body count
    (if delivered e k (Mail chef subject body) then "sent" else "failed").

(** One entry per recipient, in order; the i-th reflects the answer to the
    post numbered [k + i] and nothing else. *)
Fixpoint entries (e : env) (subject body : string) (count : Z) (k : nat)
    (chefs : list string) : list notification_row :=
  match chefs with
  | [] => []
  | c :: cs => entry e subject body count k c
               :: entries e subject body count (S k) cs
  end.

Fixpoint send_logs (e : env) (subject body : string) (k : nat)
    (chefs : list string) : list (level * string) :=
  match chefs with
  | [] => []
  | c :: cs => send_log e k (Mail c subject body)
               :: send_logs e subject body (S k) cs
  end.

Definition add_notifications (db : database) (rows : list notification_row)
  : database :=
  Database (attendance db) (users db) (notifications db ++ rows).

(** What is left of the run once the connection is open and the two
    reads have come back. *)
Definition deliver (e : env) (chefs : list string) (count : Z) : M unit :=
  finally
    (try_except
       (for_each chefs
          (notify_chef e (subject_of (today e))
             (body_template_of (today e) (now e) count) count) ;;
        commit e ;;
        logger INFO ("Chef notifications sent to "
                     +:+ str_int (Z.of_nat (length chefs)) +:+ " chef(s)"))
       (fun ex =>
          Some (logger ERROR ("Failed to send chef notifications: "
                              +:+ str_exn ex))))
    close.

Definition is_warning (r : level * string) : bool :=
  match fst r with WARNING => true | _ => false end.

Definition bound_of (sql_date : string -> option date) (o : option string)
  : option (option date) :=
  match o with
  | None => Some None
  | Some lit => if String.eqb lit "" then Some None
                else option_map Some (sql_date lit)
  end.

Definition in_range (u : Z) (lo hi : option date) (r : attendance_row)
  : bool :=
  (a_user_id r =? u)
  && match lo with Some d => PyDate.leb d (a_date r) | None => true end
  && match hi with Some d => PyDate.leb (a_date r) d | None => true end.

(** The conditions a pair of query parameters adds to the statement. *)
Definition bound_condition (mk : string -> condition) (o : option string)
  : list condition :=
  match o with
  | Some lit => if truthy o then [mk lit] else []
  | None => []
  end.

Definition query_of (u : Z) (start_date end_date : option string)
  : list condition :=
  [UserIdEq u] ++ bound_condition DateGe start_date
  ++ bound_condition DateLe end_date.

(** ** Example inputs *)

Definition no_fault : nat -> option string := fun _ => None.

Definition gateway_up : nat -> mail -> reply := fun _ _ => Response 201 "{}".

Definition at_2145 (d : date) : env :=
  Env d (DateTime d 21 45 0 0) 1718055900 no_fault (Some "xkeysib")
      gateway_up.

Definition monday_evening : env := at_2145 (Date 2024 6 10).
Definition friday_evening : env := at_2145 (Date 2024 6 14).
Definition saturday_evening : env := at_2145 (Date 2024 6 8).

Definition office_request (d : string) : AttendanceRequest :=
  {| req_date := d; req_status := "office" |}.

Definition empty_db : database := Database [] [] [].

Definition fresh (db : database) : state := State db db 0 [] [].

Definition monday_noon : env :=
  Env (Date 2024 6 10) (DateTime (Date 2024 6 10) 12 0 0 0) 1718020800
      no_fault (Some "xkeysib") gateway_up.

Definition monday_later : env :=
  Env (Date 2024 6 10) (DateTime (Date 2024 6 10) 13 0 0 0) 1718024400
      no_fault (Some "xkeysib") gateway_up.

Definition three_chefs : database :=
  Database []
    [UserRow 1 "anna@kitchen" "Anna" "chef" 1;
     UserRow 2 "ben@kitchen" "Ben" "chef" 1;
     UserRow 3 "eve@office" "Eve" "employee" 1;
     UserRow 4 "cal@kitchen" "Cal" "chef" 1;
     UserRow 5 "old@kitchen" "Old" "chef" 0]
    [].

(** The gateway refuses Ben and accepts everyone else. *)
Definition gateway_refusing_ben : nat -> mail -> reply := fun _ m =>
  if String.eqb (m_to m) "ben@kitchen" then Response 500 "refused"
  else Response 201 "{}".

Definition monday_run (key : option string) (faults : nat -> option string)
  : env :=
  Env (Date 2024 6 10) (DateTime (Date 2024 6 10) 18 57 0 0) 1718045820
      faults key gateway_refusing_ben.

(** The second insert of the run, the fifth database call, fails. *)
Definition second_insert_fails : nat -> option string := fun k =>
  if Nat.eqb k 4 then Some "MySQL server has gone away" else None.

Definition week_of_records : database :=
  Database
    [AttendanceRow 7 (Date 2024 6 10) "office" 1;
     AttendanceRow 7 (Date 2024 6 12) "home" 2;
     AttendanceRow 8 (Date 2024 6 11) "home" 3;
     AttendanceRow 7 (Date 2024 6 11) "leave" 4;
     AttendanceRow 7 (Date 2024 6 13) "office" 5]
    [] [].

(** ** Further vocabulary: dates *)

(** Month and day of the [n]-th day (from 0) of year [y], the last step of
    [ord2ymd]. *)
Definition ymd_of_year_day (y : Z) (leapyear : bool) (n : Z) : date :=
  let m := Z.shiftr (n + 50) 5 in
  let preceding :=
    index DAYS_BEFORE_MONTH m + (if (2 <? m) && leapyear then 1 else 0) in
  if n <? preceding then
    let m := m - 1 in
    let preceding :=
      preceding
      - (index DAYS_IN_MONTH m + (if (m =? 2) && leapyear then 1 else 0)) in
    Date y m (n - preceding + 1)
  else Date y m (n - preceding + 1).

(** What is asked of month and day for day [n] of a year. *)
Definition year_day_ok (leapyear : bool) (n : Z) : bool :=
  let d := ymd_of_year_day 0 leapyear n in
  (1 <=? month d) && (month d <=? 12) && (1 <=? day d)
  && (day d <=? (if (month d =? 2) && leapyear then 29
                 else index DAYS_IN_MONTH (month d)))
  && (index DAYS_BEFORE_MONTH (month d)
      + (if (2 <? month d) && leapyear then 1 else 0) + day d =? n + 1).

(** ** The daily count endpoint *)

Record DailyCountReply := {
  dc_date : string; dc_office_count : Z; dc_message : string }.

Definition get_daily_office_count (strptime_ymd : string -> option date)
    (e : env) (date_str : option string) : M DailyCountReply :=
  check_date <-
    match date_str with
    | Some s =>
        if truthy date_str then
          try_except
            (match strptime_ymd s with
             | Some d => ret d
             | None => raise (ValueError "does not match format")
             end)
            (fun ex =>
               match ex with
               | ValueError _ =>
                   Some (raise (HTTPException 400 "Invalid date format"))
               | _ => None
               end)
        else ret (today e)
    | None => ret (today e)
    end ;;
  get_db_connection e ;;
  finally
    (office_count <- execute e (sql_count_office check_date) ;;
     ret {| dc_date := isoformat check_date;
            dc_office_count := office_count;
            dc_message := str_int office_count
                          +:+ " employees will be in office today" |})
    close.

(** ** Further vocabulary: handlers *)

(** The day the daily count is asked for: an absent or empty parameter
    means today. *)
Definition count_day (strptime_ymd : string -> option date) (e : env)
    (date_str : option string) : option date :=
  match date_str with
  | Some s => if String.eqb s "" then Some (today e) else strptime_ymd s
  | None => Some (today e)
  end.

Definition of_user (u : Z) (r : attendance_row) : bool := a_user_id r =? u.

Definition working_day (r : attendance_row) : Prop :=
  is_weekend (a_date r) = false.

Definition is_active_chef (t : list user_row) (email : string) : Prop :=
  exists row, In row t /\ u_email row = email /\ u_role row = "chef"
              /\ u_is_active row = 1.

(** ** Further example inputs *)

Definition connection_refused : nat -> option string := fun k =>
  if Nat.eqb k 0 then Some "Can't connect to MySQL server" else None.

Definition statement_fails : nat -> option string := fun k =>
  if Nat.eqb k 1 then Some "Lock wait timeout exceeded" else None.

Definition monday_noon_with (faults : nat -> option string) : env :=
  Env (Date 2024 6 10) (DateTime (Date 2024 6 10) 12 0 0 0) 1718020800
      faults (Some "xkeysib") gateway_up.

Definition tuesday_office : database :=
  Database
    [AttendanceRow 1 (Date 2024 6 11) "office" 10;
     AttendanceRow 2 (Date 2024 6 11) "office" 11;
     AttendanceRow 3 (Date 2024 6 11) "home" 12;
     AttendanceRow 4 (Date 2024 6 11) "office" 13;
     AttendanceRow 1 (Date 2024 6 12) "office" 14]
    [] [].

(** Three active chefs, and on Monday 2024-06-10 two employees in the
    office and one at home. *)
Definition monday_kitchen : database :=
  Database
    [AttendanceRow 11 (Date 2024 6 10) "office" 1;
     AttendanceRow 12 (Date 2024 6 10) "home" 2;
     AttendanceRow 13 (Date 2024 6 10) "office" 3;
     AttendanceRow 11 (Date 2024 6 11) "office" 4]
    (users three_chefs) [].

(** * Properties *)

(** ** Dates and times *)

Lemma date_eqb_eq (a b : date) : PyDate.eqb a b = true <-> a = b.
Proof.
  destruct a as [y m d], b as [y' m' d']; unfold PyDate.eqb; simpl.
  rewrite !andb_true_iff, !Z.eqb_eq. split.
  - intros [[-> ->] ->]; reflexivity.
  - intros [= -> -> ->]; auto.
Qed.

Lemma date_eqb_neq (a b : date) : PyDate.eqb a b = false <-> a <> b.
Proof.
  rewrite <- date_eqb_eq. destruct (PyDate.eqb a b); split; congruence.
Qed.

Lemma date_cmp_refl (a : date) : PyDate.cmp a a = Eq.
Proof. unfold PyDate.cmp. now rewrite !Z.compare_refl. Qed.

Lemma weekday_range (d : date) : 0 <= weekday d < 7.
Proof. unfold weekday. apply Z.mod_pos_bound. lia. Qed.

(** Saturday is 5 and Sunday is 6. *)
Lemma is_weekend_spec (d : date) :
  is_weekend d = true <-> weekday d = 5 \/ weekday d = 6.
Proof.
  unfold is_weekend. rewrite Z.leb_le. pose proof (weekday_range d). lia.
Qed.

(** Monday to Friday are 0 to 4. *)
Lemma is_weekday_spec (d : date) :
  is_weekend d = false <-> weekday d < 5.
Proof. unfold is_weekend. now rewrite Z.leb_gt. Qed.

Lemma is_after_cutoff_time_spec (e : env) :
  valid_time (now e) ->
  is_after_cutoff_time e = true <-> micros_of_day (now e) > CUTOFF_MICROS.
Proof.
  intros (Hh & Hm & Hs & Hu).
  unfold is_after_cutoff_time, dt_gtb, dt_cmp, dt_replace, micros_of_day,
    CUTOFF_MICROS; simpl.
  rewrite date_cmp_refl; simpl.
  destruct (Z.compare_spec (hour (now e)) 21); simpl;
    [destruct (Z.compare_spec (minute (now e)) 30); simpl;
      [destruct (Z.compare_spec (second (now e)) 0); simpl;
        [destruct (Z.compare_spec (microsecond (now e)) 0); simpl|..]|..]|..];
    split; intros; try discriminate; try reflexivity; lia.
Qed.

(** ** Database calls that do not fail *)

Lemma available_no_fault (e : env) :
  db_fault e = no_fault -> available e.
Proof. intros H k. now rewrite H. Qed.

Lemma get_db_connection_ok (e : env) (s : state) :
  db_fault e (ops s) = None ->
  get_db_connection e s = (Ok tt, with_session (committed s) (tick s)).
Proof.
  intros H. unfold get_db_connection, try_except, connect. now rewrite H.
Qed.

Lemma execute_ok {A} (e : env) (q : database -> result A * database)
    (s : state) :
  db_fault e (ops s) = None ->
  execute e q s
  = (fst (q (session s)), with_session (snd (q (session s))) (tick s)).
Proof. intros H. unfold execute. rewrite H. now destruct (q (session s)). Qed.

Lemma commit_ok (e : env) (s : state) :
  db_fault e (ops s) = None ->
  commit e s
  = (Ok tt, State (session s) (session s) (S (ops s)) (log s) (outbox s)).
Proof. intros H. unfold commit. now rewrite H. Qed.

(** ** Attendance submission *)

Lemma insert_update_attendance_ok (e : env) (u : Z) (d : date)
    (st msg : string) (s : state) :
  available e ->
  let db' := Database (upsert_attendance (CURRENT_TIMESTAMP e) u d st
                         (attendance (committed s)))
                      (users (committed s)) (notifications (committed s)) in
  insert_update_attendance e u d st msg s
  = (Ok {| resp_message := msg; resp_date := isoformat d |},
     State db' db' (S (S (S (ops s)))) (log s) (outbox s)).
Proof.
  intros Ha db'. unfold insert_update_attendance, bind, finally, try_except.
  rewrite get_db_connection_ok by apply Ha.
  rewrite execute_ok by apply Ha. simpl.
  rewrite commit_ok by apply Ha. reflexivity.
Qed.

Lemma mark_attendance_parsed (strptime_ymd : string -> option date)
    (e : env) (req : AttendanceRequest) (u : Z) (d : date) (s : state) :
  strptime_ymd (req_date req) = Some d ->
  is_weekend d = false ->
  mark_attendance strptime_ymd e req u s
  = (if PyDate.eqb d (today e) && is_after_cutoff_time e then
       match add_days (today e) 1 with
       | Some tomorrow =>
           insert_update_attendance e u tomorrow (req_status req)
             MSG_ROLLED_OVER s
       | None => (Raise (OverflowError "date value out of range"), s)
       end
     else insert_update_attendance e u d (req_status req) MSG_MARKED s).
Proof.
  intros Hp Hw. unfold mark_attendance, bind, try_except.
  rewrite Hp; simpl. rewrite Hw.
  destruct (PyDate.eqb d (today e) && is_after_cutoff_time e); simpl.
  - destruct (add_days (today e) 1); reflexivity.
  - reflexivity.
Qed.

(** C1 (as amended): a submission for today, made strictly after the 21:30
    cutoff on a day that is not Saturday or Sunday, is resolved to today + 1
    day with the rollover message, when that next day is a representable
    date: the handler goes on to store exactly that date and message, and
    when the database calls succeed the record is upserted under it and the
    reply carries it. *)
Theorem mark_attendance_rolls_over (strptime_ymd : string -> option date)
    (e : env) (req : AttendanceRequest) (u : Z) (d tomorrow : date)
    (s : state) :
  strptime_ymd (req_date req) = Some d ->
  weekday d < 5 ->
  d = today e ->
  valid_time (now e) ->
  micros_of_day (now e) > CUTOFF_MICROS ->
  add_days d 1 = Some tomorrow ->
  mark_attendance strptime_ymd e req u s
  = insert_update_attendance e u tomorrow (req_status req) MSG_ROLLED_OVER s
  /\ (available e ->
      marked strptime_ymd e req u tomorrow MSG_ROLLED_OVER s).
Proof.
  intros Hp Hw Ht Hv Hc Hadd. apply is_weekday_spec in Hw.
  assert (mark_attendance strptime_ymd e req u s
          = insert_update_attendance e u tomorrow (req_status req)
              MSG_ROLLED_OVER s) as Hrun.
  { rewrite (mark_attendance_parsed _ _ _ _ _ _ Hp Hw).
    apply (is_after_cutoff_time_spec e Hv) in Hc.
    subst d. now rewrite (proj2 (date_eqb_eq _ _) eq_refl), Hc, Hadd. }
  split; [exact Hrun|]. intros Ha. unfold marked. rewrite Hrun.
  rewrite insert_update_attendance_ok by exact Ha.
  eexists; split; reflexivity.
Qed.

(** C1, the concrete scenario: Monday 2024-06-10 at 21:45, a request for
    2024-06-10 is answered with 2024-06-11 and the rollover message. *)
Lemma mark_attendance_rolls_over_witness :
  marked iso_date monday_evening (office_request "2024-06-10") 7
         (Date 2024 6 11) MSG_ROLLED_OVER (fresh empty_db)
  /\ isoformat (Date 2024 6 11) = "2024-06-11".
Proof.
  split; [|reflexivity].
  apply (mark_attendance_rolls_over iso_date monday_evening
           (office_request "2024-06-10") 7 (Date 2024 6 10) (Date 2024 6 11)).
  - reflexivity.
  - reflexivity.
  - reflexivity.
  - unfold valid_time; simpl; lia.
  - reflexivity.
  - reflexivity.
  - apply available_no_fault; reflexivity.
Defined.

(** C1 as stated fails on a weekend: on Saturday 2024-06-08 at 21:45 a
    request for that day equals today and comes after the cutoff, yet it is
    rejected and nothing is stored. *)
Lemma mark_attendance_rollover_weekend_counterexample :
  let e := saturday_evening in
  let req := office_request "2024-06-08" in
  iso_date (req_date req) = Some (today e)
  /\ micros_of_day (now e) > CUTOFF_MICROS
  /\ add_days (today e) 1 = Some (Date 2024 6 9)
  /\ mark_attendance iso_date e req 7 (fresh empty_db)
     = (Raise (HTTPException 400 "Cannot mark attendance on weekends"),
        fresh empty_db)
  /\ ~ marked iso_date e req 7 (Date 2024 6 9) MSG_ROLLED_OVER
         (fresh empty_db).
Proof.
  cbv zeta. repeat split; try reflexivity.
  intros (s' & H & _). vm_compute in H. discriminate H.
Qed.

(** C2, at the failing input: on Friday 2024-06-14 at 21:45 a request for
    that Friday passes the weekend check, rolls over, and a record dated
    Saturday 2024-06-15 is committed. *)
Theorem mark_attendance_friday_rollover_stores_saturday :
  let saturday_stored :=
    Database [AttendanceRow 7 (Date 2024 6 15) "office" 1718055900] [] [] in
  weekday (Date 2024 6 14) = 4
  /\ mark_attendance iso_date friday_evening (office_request "2024-06-14") 7
       (fresh empty_db)
     = (Ok {| resp_message := MSG_ROLLED_OVER; resp_date := "2024-06-15" |},
        State saturday_stored saturday_stored 3 [] [])
  /\ weekday (Date 2024 6 15) = 5
  /\ is_weekend (Date 2024 6 15) = true.
Proof. cbv zeta. repeat split; vm_compute; reflexivity. Qed.

(** C3: a request for a Saturday or a Sunday is rejected with "Cannot mark
    attendance on weekends" whatever the clock, the database and the
    gateway do, and the state, the store included, is left as it was. *)
Theorem mark_attendance_weekend_rejected
    (strptime_ymd : string -> option date) (e : env)
    (req : AttendanceRequest) (u : Z) (d : date) (s : state) :
  strptime_ymd (req_date req) = Some d ->
  weekday d = 5 \/ weekday d = 6 ->
  mark_attendance strptime_ymd e req u s
  = (Raise (HTTPException 400 "Cannot mark attendance on weekends"), s).
Proof.
  intros Hp Hw. apply is_weekend_spec in Hw.
  unfold mark_attendance, bind, try_except. rewrite Hp; simpl.
  now rewrite Hw.
Qed.

Lemma mark_attendance_weekend_rejected_witness :
  mark_attendance iso_date monday_evening (office_request "2024-06-16") 7
    (fresh empty_db)
  = (Raise (HTTPException 400 "Cannot mark attendance on weekends"),
     fresh empty_db).
Proof.
  apply (mark_attendance_weekend_rejected iso_date monday_evening
           (office_request "2024-06-16") 7 (Date 2024 6 16)).
  - reflexivity.
  - right; reflexivity.
Defined.

(** C4: a request for a day that is not Saturday or Sunday, and that either
    is not today or is made no later than the cutoff, is resolved to the
    requested date with the plain message, without rollover: the handler
    goes on to store exactly that date and message, and when the database
    calls succeed the record is upserted under it and the reply carries
    it. *)
Theorem mark_attendance_no_rollover (strptime_ymd : string -> option date)
    (e : env) (req : AttendanceRequest) (u : Z) (d : date) (s : state) :
  strptime_ymd (req_date req) = Some d ->
  weekday d < 5 ->
  valid_time (now e) ->
  d <> today e \/ (d = today e /\ micros_of_day (now e) <= CUTOFF_MICROS) ->
  mark_attendance strptime_ymd e req u s
  = insert_update_attendance e u d (req_status req) MSG_MARKED s
  /\ (available e -> marked strptime_ymd e req u d MSG_MARKED s).
Proof.
  intros Hp Hw Hv Hc. apply is_weekday_spec in Hw.
  assert (mark_attendance strptime_ymd e req u s
          = insert_update_attendance e u d (req_status req) MSG_MARKED s)
    as Hrun.
  { rewrite (mark_attendance_parsed _ _ _ _ _ _ Hp Hw).
    assert (PyDate.eqb d (today e) && is_after_cutoff_time e = false) as ->;
      [|reflexivity].
    apply andb_false_iff. destruct Hc as [Hne | [_ Hle]].
    - left. now apply date_eqb_neq.
    - right. destruct (is_after_cutoff_time e) eqn:E; [|reflexivity].
      apply (is_after_cutoff_time_spec e Hv) in E. lia. }
  split; [exact Hrun|]. intros Ha. unfold marked. rewrite Hrun.
  rewrite insert_update_attendance_ok by exact Ha.
  eexists; split; reflexivity.
Qed.

Lemma mark_attendance_no_rollover_witness :
  marked iso_date monday_noon (office_request "2024-06-10") 7
         (Date 2024 6 10) MSG_MARKED (fresh empty_db).
Proof.
  apply (mark_attendance_no_rollover iso_date monday_noon
           (office_request "2024-06-10") 7 (Date 2024 6 10)).
  - reflexivity.
  - reflexivity.
  - unfold valid_time; simpl; lia.
  - right. split; [reflexivity | vm_compute; discriminate].
  - apply available_no_fault; reflexivity.
Defined.

(** ** Repeated upserts *)

Lemma same_key_eq (u : Z) (d : date) (r : attendance_row) :
  same_key u d r = true <-> a_user_id r = u /\ a_date r = d.
Proof.
  unfold same_key. now rewrite andb_true_iff, Z.eqb_eq, date_eqb_eq.
Qed.

Lemma same_key_new (u : Z) (d : date) (st : string) (ts : Z) :
  same_key u d (AttendanceRow u d st ts) = true.
Proof. now apply same_key_eq. Qed.

Lemma rows_for_none (u : Z) (d : date) (t : list attendance_row) :
  existsb (same_key u d) t = false -> rows_for u d t = [].
Proof.
  unfold rows_for. induction t as [|r t IH]; simpl; [reflexivity|].
  intros H. apply orb_false_iff in H as [Hr Ht]. rewrite Hr. now apply IH.
Qed.

Lemma rows_for_updated (u : Z) (d : date) (st : string) (ts : Z)
    (t : list attendance_row) :
  rows_for u d
    (map (fun r => if same_key u d r
                   then AttendanceRow (a_user_id r) (a_date r) st ts
                   else r) t)
  = map (fun _ => AttendanceRow u d st ts) (rows_for u d t).
Proof.
  unfold rows_for. induction t as [|r t IH]; simpl; [reflexivity|].
  destruct (same_key u d r) eqn:E.
  - apply same_key_eq in E as E'. destruct E' as [-> ->].
    rewrite same_key_new. simpl. now rewrite IH.
  - rewrite E. exact IH.
Qed.

Lemma rows_for_some (u : Z) (d : date) (t : list attendance_row) :
  existsb (same_key u d) t = true -> rows_for u d t <> [].
Proof.
  intros H E. apply existsb_exists in H as (r & Hin & Hr).
  assert (In r (rows_for u d t)) as Hf by (apply filter_In; auto).
  rewrite E in Hf. destruct Hf.
Qed.

(** After the statement there is exactly one row for the key, provided
    there was at most one before. *)
Lemma upsert_attendance_rows_for (ts u : Z) (d : date) (st : string)
    (t : list attendance_row) :
  (length (rows_for u d t) <= 1)%nat ->
  rows_for u d (upsert_attendance ts u d st t) = [AttendanceRow u d st ts].
Proof.
  intros Hlen. unfold upsert_attendance.
  destruct (existsb (same_key u d) t) eqn:E.
  - rewrite rows_for_updated. apply rows_for_some in E.
    destruct (rows_for u d t) as [|r [|r' l]]; simpl in *;
      [congruence | reflexivity | lia].
  - unfold rows_for. rewrite List.filter_app. fold (rows_for u d t).
    rewrite (rows_for_none _ _ _ E). simpl. now rewrite same_key_new.
Qed.

(** Once the key is present the statement leaves the list of keys alone. *)
Lemma upsert_attendance_keys (ts u : Z) (d : date) (st : string)
    (t : list attendance_row) :
  rows_for u d t <> [] ->
  map key (upsert_attendance ts u d st t) = map key t.
Proof.
  intros Hne. unfold upsert_attendance.
  destruct (existsb (same_key u d) t) eqn:E.
  - rewrite map_map. apply map_ext. intros r.
    now destruct (same_key u d r).
  - now apply rows_for_none in E.
Qed.

Lemma upsert_call_attendance (u : Z) (d : date) (s : state)
    (c : env * string) :
  available (fst c) ->
  attendance (committed (upsert_call u d s c))
  = upsert_attendance (CURRENT_TIMESTAMP (fst c)) u d (snd c)
      (attendance (committed s)).
Proof.
  intros Ha. unfold upsert_call.
  now rewrite insert_update_attendance_ok by exact Ha.
Qed.

Lemma history_spec (u : Z) (d : date) (calls : list (env * string)) :
  Forall (fun c => available (fst c)) calls ->
  forall s,
    (length (rows_for u d (attendance (committed s))) <= 1)%nat ->
    history u d calls s
    = map (fun c => [AttendanceRow u d (snd c) (CURRENT_TIMESTAMP (fst c))])
          calls.
Proof.
  induction 1 as [|c calls Hc _ IH]; intros s Hlen; simpl; [reflexivity|].
  rewrite (upsert_call_attendance _ _ _ _ Hc).
  rewrite (upsert_attendance_rows_for _ _ _ _ _ Hlen). f_equal.
  apply IH. rewrite (upsert_call_attendance _ _ _ _ Hc).
  rewrite (upsert_attendance_rows_for _ _ _ _ _ Hlen). simpl; lia.
Qed.

Lemma run_calls_keys (u : Z) (d : date) (calls : list (env * string)) :
  Forall (fun c => available (fst c)) calls ->
  forall s,
    rows_for u d (attendance (committed s)) <> [] ->
    (length (rows_for u d (attendance (committed s))) <= 1)%nat ->
    map key (attendance (committed (run_calls u d calls s)))
    = map key (attendance (committed s)).
Proof.
  induction 1 as [|c calls Hc _ IH]; intros s Hne Hlen; simpl;
    [reflexivity|].
  rewrite IH.
  - rewrite (upsert_call_attendance _ _ _ _ Hc).
    now apply upsert_attendance_keys.
  - rewrite (upsert_call_attendance _ _ _ _ Hc).
    now rewrite (upsert_attendance_rows_for _ _ _ _ _ Hlen).
  - rewrite (upsert_call_attendance _ _ _ _ Hc).
    rewrite (upsert_attendance_rows_for _ _ _ _ _ Hlen). simpl; lia.
Qed.

(** C5: take a store with at most one record for (u, d) and any sequence of
    upserts for that key whose database calls succeed.  After every call
    there is exactly one record for (u, d); it carries that call's status
    and the server's clock reading of that call, so the stored timestamps
    are non-decreasing whenever the clock readings are; and from the first
    call on the list of stored keys no longer changes. *)
Theorem upsert_repeated (u : Z) (d : date) (calls : list (env * string))
    (s : state) :
  Forall (fun c => available (fst c)) calls ->
  (length (rows_for u d (attendance (committed s))) <= 1)%nat ->
  history u d calls s
  = map (fun c => [AttendanceRow u d (snd c) (CURRENT_TIMESTAMP (fst c))])
        calls
  /\ (Sorted Z.le (map (fun c => CURRENT_TIMESTAMP (fst c)) calls) ->
      Sorted Z.le (map a_marked_at (concat (history u d calls s))))
  /\ (forall c calls', calls = c :: calls' ->
      map key (attendance (committed (run_calls u d calls s)))
      = map key (attendance (committed (upsert_call u d s c)))).
Proof.
  intros Ha Hlen. pose proof (history_spec u d calls Ha s Hlen) as Hh.
  split; [exact Hh|]. split.
  - intros Hs. rewrite Hh.
    replace (map a_marked_at (concat _))
      with (map (fun c : env * string => CURRENT_TIMESTAMP (fst c)) calls);
      [exact Hs|].
    clear. induction calls as [|c calls IH]; simpl; [reflexivity|].
    now rewrite IH.
  - intros c calls' ->. simpl. inversion Ha as [|? ? Hc Ha']; subst.
    apply run_calls_keys; [exact Ha'| |];
      rewrite (upsert_call_attendance _ _ _ _ Hc),
        (upsert_attendance_rows_for _ _ _ _ _ Hlen); [discriminate|simpl; lia].
Qed.

Lemma upsert_repeated_witness :
  let calls := [(monday_noon, "office"); (monday_later, "office");
                (monday_later, "home")] in
  history 7 (Date 2024 6 11) calls (fresh empty_db)
  = [[AttendanceRow 7 (Date 2024 6 11) "office" 1718020800];
     [AttendanceRow 7 (Date 2024 6 11) "office" 1718024400];
     [AttendanceRow 7 (Date 2024 6 11) "home" 1718024400]]
  /\ Sorted Z.le (map a_marked_at
       (concat (history 7 (Date 2024 6 11) calls (fresh empty_db)))).
Proof.
  cbv zeta.
  destruct (upsert_repeated 7 (Date 2024 6 11)
              [(monday_noon, "office"); (monday_later, "office");
               (monday_later, "home")] (fresh empty_db)) as (H1 & H2 & _).
  - repeat constructor; apply available_no_fault; reflexivity.
  - simpl; lia.
  - split; [exact H1|]. apply H2. simpl.
    repeat constructor; vm_compute; discriminate.
Defined.

(** ** The notification run *)

Lemma send_email_notification_spec (e : env) (to subject body : string)
    (s : state) :
  let m := Mail to subject body in
  let k := length (outbox s) in
  send_email_notification e to subject body s
  = (Ok (delivered e k m),
     State (committed s) (session s) (ops s) (log s ++ [send_log e k m])
           (outbox s ++ posts e subject body [to])).
Proof.
  cbv zeta.
  unfold send_email_notification, try_except, delivered, send_log, posts,
    configured.
  destruct (truthy (BREVO_API_KEY e)); simpl.
  - unfold bind, requests_post.
    destruct (gateway e (length (outbox s)) (Mail to subject body))
      as [code text|msg]; simpl; [|reflexivity].
    destruct ((code =? 200) || ((code =? 201) || ((code =? 202) || false)));
      reflexivity.
  - unfold bind, logger, ret; simpl. now rewrite app_nil_r.
Qed.

Lemma delivered_unconfigured (e : env) (k : nat) (m : mail) :
  configured e = false -> delivered e k m = false.
Proof. intros H. unfold delivered. now rewrite H. Qed.

Lemma entries_unconfigured (e : env) (subject body : string) (count : Z)
    (chefs : list string) :
  configured e = false ->
  forall k,
    entries e subject body count k chefs
    = map (fun c => NotificationRow "daily_count" c body count "failed")
          chefs.
Proof.
  intros H. induction chefs as [|c cs IH]; intros k; simpl; [reflexivity|].
  unfold entry. rewrite delivered_unconfigured by exact H. now rewrite IH.
Qed.

Lemma send_logs_unconfigured (e : env) (subject body : string)
    (chefs : list string) :
  configured e = false ->
  forall k,
    send_logs e subject body k chefs = repeat KEY_WARNING (length chefs).
Proof.
  intros H. induction chefs as [|c cs IH]; intros k; simpl; [reflexivity|].
  unfold send_log. rewrite H. now rewrite IH.
Qed.

(** The index of the next post after one send. *)
Lemma next_post (e : env) (subject body to : string) (s : state) :
  configured e = true ->
  length (outbox s ++ posts e subject body [to]) = S (length (outbox s)).
Proof.
  intros H. unfold posts. rewrite H. rewrite length_app. simpl. lia.
Qed.

Lemma notify_chef_committed (e : env) (subject body : string) (count : Z)
    (chef : string) (s : state) :
  committed (snd (notify_chef e subject body count chef s)) = committed s.
Proof.
  unfold notify_chef, bind. rewrite send_email_notification_spec.
  unfold execute; simpl. now destruct (db_fault e (ops s)).
Qed.

Lemma for_each_notify_committed (e : env) (subject body : string)
    (count : Z) (chefs : list string) :
  forall s,
    committed (snd (for_each chefs (notify_chef e subject body count) s))
    = committed s.
Proof.
  induction chefs as [|c cs IH]; intros s; simpl; [reflexivity|].
  unfold bind.
  pose proof (notify_chef_committed e subject body count c s) as H.
  destruct (notify_chef e subject body count c s) as [[[]|ex] s1]; simpl in *.
  - now rewrite IH.
  - exact H.
Qed.

Lemma notify_chef_ok (e : env) (subject body : string) (count : Z)
    (chef : string) (s : state) :
  db_fault e (ops s) = None ->
  notify_chef e subject body count chef s
  = (Ok tt,
     State (committed s)
       (add_notifications (session s)
          [entry e subject body count (length (outbox s)) chef])
       (S (ops s))
       (log s ++ [send_log e (length (outbox s)) (Mail chef subject body)])
       (outbox s ++ posts e subject body [chef])).
Proof.
  intros H. unfold notify_chef, bind. rewrite send_email_notification_spec.
  rewrite execute_ok by exact H. reflexivity.
Qed.

Lemma notify_chef_fault (e : env) (subject body : string) (count : Z)
    (chef : string) (s : state) (msg : string) :
  db_fault e (ops s) = Some msg ->
  fst (notify_chef e subject body count chef s) = Raise (Error msg).
Proof.
  intros H. unfold notify_chef, bind. rewrite send_email_notification_spec.
  unfold execute; simpl. now rewrite H.
Qed.

Lemma entries_shift (e : env) (subject body : string) (count : Z)
    (c : string) (cs : list string) (s : state) :
  entries e subject body count
    (length (outbox s ++ posts e subject body [c])) cs
  = entries e subject body count (S (length (outbox s))) cs.
Proof.
  destruct (configured e) eqn:Hc.
  - now rewrite next_post.
  - now rewrite !entries_unconfigured.
Qed.

Lemma send_logs_shift (e : env) (subject body : string)
    (c : string) (cs : list string) (s : state) :
  send_logs e subject body
    (length (outbox s ++ posts e subject body [c])) cs
  = send_logs e subject body (S (length (outbox s))) cs.
Proof.
  destruct (configured e) eqn:Hc.
  - now rewrite next_post.
  - now rewrite !send_logs_unconfigured.
Qed.

Lemma posts_cons (e : env) (subject body : string) (c : string)
    (cs : list string) :
  posts e subject body (c :: cs)
  = (posts e subject body [c] ++ posts e subject body cs)%list.
Proof. unfold posts. now destruct (configured e). Qed.

Lemma add_notifications_nil (db : database) : add_notifications db [] = db.
Proof. destruct db. unfold add_notifications; simpl. now rewrite app_nil_r. Qed.

Lemma add_notifications_app (db : database) (l1 l2 : list notification_row) :
  add_notifications (add_notifications db l1) l2
  = add_notifications db (l1 ++ l2).
Proof. unfold add_notifications; simpl. now rewrite app_assoc. Qed.

(** The loop over the recipients when none of its inserts fails. *)
Lemma for_each_notify_ok (e : env) (subject body : string) (count : Z)
    (chefs : list string) :
  forall s,
    (forall i, (i < length chefs)%nat -> db_fault e (ops s + i) = None) ->
    for_each chefs (notify_chef e subject body count) s
    = (Ok tt,
       State (committed s)
         (add_notifications (session s)
            (entries e subject body count (length (outbox s)) chefs))
         (ops s + length chefs)
         (log s ++ send_logs e subject body (length (outbox s)) chefs)
         (outbox s ++ posts e subject body chefs)).
Proof.
  induction chefs as [|c cs IH]; intros s Hok.
  - simpl. unfold ret. rewrite add_notifications_nil, Nat.add_0_r.
    replace (posts e subject body []) with (@nil mail)
      by (unfold posts; now destruct (configured e)).
    rewrite !app_nil_r. now destruct s.
  - simpl for_each. unfold bind.
    rewrite notify_chef_ok
      by (rewrite <- (Nat.add_0_r (ops s)); apply Hok; simpl; lia).
    rewrite IH.
    + simpl. rewrite entries_shift, send_logs_shift, add_notifications_app.
      rewrite (posts_cons e subject body c cs).
      rewrite <- !app_assoc. simpl.
      now replace (S (ops s + length cs)) with (ops s + S (length cs))%nat
        by lia.
    + intros i Hi. simpl.
      replace (S (ops s + i)) with (ops s + S i)%nat by lia.
      apply Hok. simpl; lia.
Qed.

(** If the loop comes back normally, none of its inserts failed. *)
Lemma for_each_notify_ok_inv (e : env) (subject body : string) (count : Z)
    (chefs : list string) :
  forall s,
    fst (for_each chefs (notify_chef e subject body count) s) = Ok tt ->
    forall i, (i < length chefs)%nat -> db_fault e (ops s + i) = None.
Proof.
  induction chefs as [|c cs IH]; intros s Hr i Hi; simpl in Hi; [lia|].
  simpl for_each in Hr. unfold bind in Hr.
  destruct (db_fault e (ops s)) as [msg|] eqn:Hf.
  - pose proof (notify_chef_fault e subject body count c s msg Hf) as Hn.
    destruct (notify_chef e subject body count c s) as [[[]|ex] s1];
      simpl in *; discriminate.
  - rewrite (notify_chef_ok _ _ _ _ _ _ Hf) in Hr.
    destruct i as [|j]; [now rewrite Nat.add_0_r|].
    replace (ops s + S j)%nat with (S (ops s) + j)%nat by lia.
    apply (IH _ Hr). lia.
Qed.

Lemma send_chef_notification_reads (e : env) (s : state) :
  is_weekend (today e) = false ->
  (forall i, (i < 3)%nat -> db_fault e (ops s + i) = None) ->
  let chefs := active_chefs (users (committed s)) in
  let count := count_office (today e) (attendance (committed s)) in
  send_chef_notification e s
  = match chefs with
    | [] =>
        (Ok tt,
         State (committed s) (committed s) (ops s + 3)
           (log s ++ [(WARNING, "No active chefs found for notification")])
           (outbox s))
    | _ :: _ =>
        deliver e chefs count
          (State (committed s) (committed s) (ops s + 3) (log s) (outbox s))
    end.
Proof.
  intros Hw Hok. cbv zeta.
  pose proof (Hok 0%nat ltac:(lia)) as H0. rewrite Nat.add_0_r in H0.
  pose proof (Hok 1%nat ltac:(lia)) as H1.
  pose proof (Hok 2%nat ltac:(lia)) as H2.
  replace (ops s + 1)%nat with (S (ops s)) in H1 by lia.
  replace (ops s + 2)%nat with (S (S (ops s))) in H2 by lia.
  replace (ops s + 3)%nat with (S (S (S (ops s)))) by lia.
  unfold send_chef_notification, deliver. rewrite Hw.
  unfold bind at 1. rewrite get_db_connection_ok by exact H0.
  unfold finally, try_except.
  unfold bind at 1. rewrite execute_ok by exact H1. simpl fst. simpl snd.
  unfold bind at 1. rewrite execute_ok by exact H2. simpl.
  destruct (active_chefs (users (committed s))); reflexivity.
Qed.

Lemma deliver_ok (e : env) (chefs : list string) (count : Z) (s : state) :
  (forall i, (i <= length chefs)%nat -> db_fault e (ops s + i) = None) ->
  let subject := subject_of (today e) in
  let body := body_template_of (today e) (now e) count in
  let db' := add_notifications (session s)
               (entries e subject body count (length (outbox s)) chefs) in
  deliver e chefs count s
  = (Ok tt,
     State db' db' (S (ops s + length chefs))
       (log s ++ send_logs e subject body (length (outbox s)) chefs
        ++ [(INFO, "Chef notifications sent to "
                   +:+ str_int (Z.of_nat (length chefs)) +:+ " chef(s)")])
       (outbox s ++ posts e subject body chefs)).
Proof.
  intros Hok. cbv zeta. unfold deliver, finally, try_except.
  unfold bind at 1.
  rewrite for_each_notify_ok by (intros i Hi; apply Hok; lia).
  unfold bind at 1. rewrite commit_ok by (apply Hok; simpl; lia).
  simpl. now rewrite <- app_assoc.
Qed.

(** C6 (as amended): on a working day with every database call of the run
    succeeding, whatever the gateway answers, the run ends normally and
    commits exactly one entry per active chef, in order; each entry says
    sent or failed according to the answer to that chef's own post; the
    logger holds one record per send, and with a configured key exactly
    one post per chef went out. *)
Theorem send_chef_notification_one_entry_per_chef (e : env) (s : state) :
  is_weekend (today e) = false ->
  available e ->
  let chefs := active_chefs (users (committed s)) in
  let count := count_office (today e) (attendance (committed s)) in
  let subject := subject_of (today e) in
  let body := body_template_of (today e) (now e) count in
  exists s',
    send_chef_notification e s = (Ok tt, s')
    /\ notifications (committed s')
       = notifications (committed s)
         ++ entries e subject body count (length (outbox s)) chefs
    /\ map n_recipient_email
         (entries e subject body count (length (outbox s)) chefs) = chefs
    /\ outbox s' = outbox s ++ posts e subject body chefs
    /\ log s'
       = log s ++ send_logs e subject body (length (outbox s)) chefs
         ++ [match chefs with
             | [] => (WARNING, "No active chefs found for notification")
             | _ :: _ =>
                 (INFO, "Chef notifications sent to "
                        +:+ str_int (Z.of_nat (length chefs)) +:+ " chef(s)")
             end].
Proof.
  intros Hw Ha. cbv zeta.
  rewrite send_chef_notification_reads by (auto; intros; apply Ha).
  assert (forall k cs,
    map n_recipient_email
      (entries e (subject_of (today e))
         (body_template_of (today e) (now e)
            (count_office (today e) (attendance (committed s))))
         (count_office (today e) (attendance (committed s))) k cs) = cs)
    as Hmap.
  { intros k cs; revert k. induction cs as [|c cs IH]; intros k; simpl;
      [reflexivity | now rewrite IH]. }
  destruct (active_chefs (users (committed s))) as [|c cs] eqn:E.
  - eexists; repeat split; simpl.
    + now rewrite app_nil_r.
    + unfold posts. destruct (configured e); now rewrite app_nil_r.
  - rewrite deliver_ok by (intros; apply Ha).
    eexists; split; [reflexivity|]. simpl. repeat split.
    now rewrite Hmap.
Qed.

(** C6, the concrete scenario: three active chefs, the gateway failing for
    exactly one; the run completes with two sent entries and one failed
    entry. *)
Lemma send_chef_notification_one_entry_per_chef_witness :
  let r := send_chef_notification (monday_run (Some "xkeysib") no_fault)
             (fresh three_chefs) in
  fst r = Ok tt
  /\ map (fun n => (n_recipient_email n, n_status n))
         (notifications (committed (snd r)))
     = [("anna@kitchen", "sent"); ("ben@kitchen", "failed");
        ("cal@kitchen", "sent")]
  /\ map m_to (outbox (snd r))
     = ["anna@kitchen"; "ben@kitchen"; "cal@kitchen"].
Proof.
  cbv zeta.
  destruct (send_chef_notification_one_entry_per_chef
              (monday_run (Some "xkeysib") no_fault) (fresh three_chefs))
    as (s' & Hrun & Hn & _ & Ho & _).
  - reflexivity.
  - apply available_no_fault; reflexivity.
  - rewrite Hrun; simpl. rewrite Hn, Ho. repeat split.
Defined.

(** C6 as stated fails when a database call fails inside the loop: with
    three active chefs and the second insert failing, the run still ends
    normally, but Cal, an active chef, gets no send attempt, and no entry
    at all is committed, not even for Anna and Ben, who were mailed. *)
Lemma send_chef_notification_fault_stops_loop_counterexample :
  let e := monday_run (Some "xkeysib") second_insert_fails in
  let r := send_chef_notification e (fresh three_chefs) in
  active_chefs (users three_chefs)
  = ["anna@kitchen"; "ben@kitchen"; "cal@kitchen"]
  /\ fst r = Ok tt
  /\ map m_to (outbox (snd r)) = ["anna@kitchen"; "ben@kitchen"]
  /\ ~ In "cal@kitchen" (map m_to (outbox (snd r)))
  /\ notifications (committed (snd r)) = [].
Proof.
  cbv zeta. repeat split. vm_compute. intuition discriminate.
Qed.

(** C7 (as amended): without a configured key, on a working day with the
    database calls succeeding, the run ends normally, posts nothing,
    commits one failed entry per active chef, and logs the warning "Brevo
    API key not configured" once for every recipient. *)
Theorem send_chef_notification_unconfigured (e : env) (s : state) :
  is_weekend (today e) = false ->
  available e ->
  configured e = false ->
  let chefs := active_chefs (users (committed s)) in
  let count := count_office (today e) (attendance (committed s)) in
  let body := body_template_of (today e) (now e) count in
  exists s',
    send_chef_notification e s = (Ok tt, s')
    /\ notifications (committed s')
       = notifications (committed s)
         ++ map (fun c => NotificationRow "daily_count" c body count "failed")
                chefs
    /\ outbox s' = outbox s
    /\ log s'
       = log s ++ repeat KEY_WARNING (length chefs)
         ++ [match chefs with
             | [] => (WARNING, "No active chefs found for notification")
             | _ :: _ =>
                 (INFO, "Chef notifications sent to "
                        +:+ str_int (Z.of_nat (length chefs)) +:+ " chef(s)")
             end].
Proof.
  intros Hw Ha Hc. cbv zeta.
  rewrite send_chef_notification_reads by (auto; intros; apply Ha).
  destruct (active_chefs (users (committed s))) as [|c cs] eqn:E.
  - eexists; repeat split; simpl. now rewrite app_nil_r.
  - rewrite deliver_ok by (intros; apply Ha).
    eexists; split; [reflexivity|]. simpl.
    rewrite send_logs_unconfigured, entries_unconfigured by exact Hc.
    unfold posts, entry, send_log. rewrite Hc.
    rewrite delivered_unconfigured by exact Hc.
    repeat split. now rewrite app_nil_r.
Qed.

Lemma send_chef_notification_unconfigured_witness :
  let r := send_chef_notification (monday_run None no_fault)
             (fresh three_chefs) in
  fst r = Ok tt
  /\ map (fun n => (n_recipient_email n, n_status n))
         (notifications (committed (snd r)))
     = [("anna@kitchen", "failed"); ("ben@kitchen", "failed");
        ("cal@kitchen", "failed")]
  /\ log (snd r)
     = [KEY_WARNING; KEY_WARNING; KEY_WARNING;
        (INFO, "Chef notifications sent to 3 chef(s)")].
Proof.
  cbv zeta.
  destruct (send_chef_notification_unconfigured
              (monday_run None no_fault) (fresh three_chefs))
    as (s' & Hrun & Hn & _ & Hl).
  - reflexivity.
  - apply available_no_fault; reflexivity.
  - reflexivity.
  - rewrite Hrun; simpl. rewrite Hn, Hl. repeat split.
Defined.

(** C7 as stated fails: with three active chefs and no key the one run
    emits three warnings, not one. *)
Lemma send_chef_notification_warning_count_counterexample :
  let r := send_chef_notification (monday_run None no_fault)
             (fresh three_chefs) in
  fst r = Ok tt
  /\ length (active_chefs (users three_chefs)) = 3%nat
  /\ length (List.filter is_warning (log (snd r))) = 3%nat
  /\ length (List.filter is_warning (log (snd r))) <> 1%nat.
Proof. cbv zeta. repeat split. vm_compute. discriminate. Qed.

(** The rest of the run either commits the entries of all recipients or
    leaves the committed data as it was. *)
Lemma deliver_committed (e : env) (chefs : list string) (count : Z)
    (s : state) :
  let subject := subject_of (today e) in
  let body := body_template_of (today e) (now e) count in
  committed (snd (deliver e chefs count s)) = committed s
  \/ committed (snd (deliver e chefs count s))
     = add_notifications (session s)
         (entries e subject body count (length (outbox s)) chefs).
Proof.
  cbv zeta. unfold deliver, finally, try_except. unfold bind at 1 3.
  pose proof (for_each_notify_committed e (subject_of (today e))
                (body_template_of (today e) (now e) count) count chefs s)
    as Hc.
  pose proof (for_each_notify_ok_inv e (subject_of (today e))
                (body_template_of (today e) (now e) count) count chefs s)
    as Hinv.
  destruct (for_each chefs _ s) as [[[]|ex] s4] eqn:Hfe; simpl in Hc, Hinv.
  - rewrite for_each_notify_ok in Hfe by (intros; now apply Hinv).
    injection Hfe as <-. unfold bind, commit; simpl.
    destruct (db_fault e (ops s + length chefs)); simpl; auto.
  - simpl. now left.
Qed.

Lemma deliver_fault (e : env) (chefs : list string) (count : Z)
    (s : state) (i : nat) (msg : string) :
  (i <= length chefs)%nat ->
  db_fault e (ops s + i) = Some msg ->
  exists s',
    deliver e chefs count s = (Ok tt, s')
    /\ committed s' = committed s
    /\ exists lg why,
         log s'
         = lg ++ [(ERROR, "Failed to send chef notifications: " +:+ why)].
Proof.
  intros Hi Hf. unfold deliver, finally, try_except. unfold bind at 1.
  pose proof (for_each_notify_committed e (subject_of (today e))
                (body_template_of (today e) (now e) count) count chefs s)
    as Hc.
  pose proof (for_each_notify_ok_inv e (subject_of (today e))
                (body_template_of (today e) (now e) count) count chefs s)
    as Hinv.
  destruct (for_each chefs _ s) as [[[]|ex] s4] eqn:Hfe; simpl in Hc, Hinv.
  - assert (i = length chefs) as ->.
    { destruct (Nat.eq_dec i (length chefs)) as [|Hne]; [assumption|].
      rewrite Hinv in Hf by (auto; lia). discriminate. }
    rewrite for_each_notify_ok in Hfe by (intros; now apply Hinv).
    injection Hfe as <-. unfold bind, commit; simpl. rewrite Hf; simpl.
    eexists; split; [reflexivity|]. simpl. split; [reflexivity|].
    eexists _, _; reflexivity.
  - simpl. eexists; split; [reflexivity|]. simpl. split; [exact Hc|].
    eexists _, _; reflexivity.
Qed.

(** C8 (as amended): the entries of a run are committed together, after
    the loop.  When an insert or the commit fails, the failure is logged,
    the run still ends normally, and the committed data is what it was
    before the run: none of the run's entries is persisted. *)
Theorem send_chef_notification_write_fault (e : env) (s : state) (i : nat)
    (msg : string) :
  is_weekend (today e) = false ->
  (forall k, (k < 3)%nat -> db_fault e (ops s + k) = None) ->
  active_chefs (users (committed s)) <> [] ->
  (i <= length (active_chefs (users (committed s))))%nat ->
  db_fault e (ops s + 3 + i) = Some msg ->
  exists s',
    send_chef_notification e s = (Ok tt, s')
    /\ committed s' = committed s
    /\ exists lg why,
         log s'
         = lg ++ [(ERROR, "Failed to send chef notifications: " +:+ why)].
Proof.
  intros Hw Hok Hne Hi Hf.
  rewrite send_chef_notification_reads by assumption.
  destruct (active_chefs (users (committed s))) as [|c cs] eqn:E;
    [congruence|].
  destruct (deliver_fault e (c :: cs)
              (count_office (today e) (attendance (committed s)))
              (State (committed s) (committed s) (ops s + 3) (log s)
                 (outbox s)) i msg Hi Hf)
    as (s' & Hrun & Hc & Hlog).
  exists s'. auto.
Qed.

Lemma send_chef_notification_write_fault_witness :
  let r := send_chef_notification
             (monday_run (Some "xkeysib") second_insert_fails)
             (fresh three_chefs) in
  fst r = Ok tt /\ committed (snd r) = three_chefs.
Proof.
  cbv zeta.
  destruct (send_chef_notification_write_fault
              (monday_run (Some "xkeysib") second_insert_fails)
              (fresh three_chefs) 1 "MySQL server has gone away")
    as (s' & Hrun & Hc & _).
  - reflexivity.
  - intros k Hk. destruct k as [|[|[|k]]]; [reflexivity..|lia].
  - discriminate.
  - simpl; lia.
  - reflexivity.
  - rewrite Hrun; simpl. split; [reflexivity | exact Hc].
Defined.

(** C8 as stated fails: Anna's mail went out and her entry was inserted
    before the second insert failed, yet after the run no entry at all is
    in the committed notification log. *)
Lemma send_chef_notification_partial_persistence_counterexample :
  let e := monday_run (Some "xkeysib") second_insert_fails in
  let r := send_chef_notification e (fresh three_chefs) in
  let s3 := State three_chefs three_chefs 3 [] [] in
  let first := notify_chef e (subject_of (today e))
                 (body_template_of (today e) (now e) 0) 0 "anna@kitchen" s3 in
  fst first = Ok tt
  /\ map (fun n => (n_recipient_email n, n_status n))
         (notifications (session (snd first))) = [("anna@kitchen", "sent")]
  /\ fst r = Ok tt
  /\ log (snd r)
     = [(INFO, "Email sent to anna@kitchen");
        (ERROR, "Failed to send email to ben@kitchen: refused");
        (ERROR, "Failed to send chef notifications: MySQL server has gone away")]
  /\ notifications (committed (snd r)) = []
  /\ notifications (session (snd r)) = [].
Proof. cbv zeta. repeat split. Qed.

Lemma entries_same_count_and_body (e : env) (subject body : string)
    (count : Z) (chefs : list string) :
  forall k,
    Forall (fun r => n_office_count r = count /\ n_content r = body)
           (entries e subject body count k chefs).
Proof.
  induction chefs as [|c cs IH]; intros k; simpl; constructor; auto.
Qed.

(** What a run can do to the committed data, whatever fails. *)
Lemma send_chef_notification_committed (e : env) (s : state) :
  let count := count_office (today e) (attendance (committed s)) in
  committed (snd (send_chef_notification e s)) = committed s
  \/ committed (snd (send_chef_notification e s))
     = add_notifications (committed s)
         (entries e (subject_of (today e))
            (body_template_of (today e) (now e) count) count
            (length (outbox s)) (active_chefs (users (committed s)))).
Proof.
  cbv zeta.
  destruct (is_weekend (today e)) eqn:Hw.
  { left. unfold send_chef_notification. now rewrite Hw. }
  destruct (db_fault e (ops s)) as [m0|] eqn:H0.
  { left. unfold send_chef_notification, bind, get_db_connection,
      try_except, connect. rewrite Hw, H0. reflexivity. }
  destruct (db_fault e (S (ops s))) as [m1|] eqn:H1.
  { left. unfold send_chef_notification. rewrite Hw. unfold bind at 1.
    rewrite get_db_connection_ok by exact H0.
    unfold finally, try_except, bind, execute; simpl. rewrite H1.
    reflexivity. }
  destruct (db_fault e (S (S (ops s)))) as [m2|] eqn:H2.
  { left. unfold send_chef_notification. rewrite Hw. unfold bind at 1.
    rewrite get_db_connection_ok by exact H0.
    unfold finally, try_except. unfold bind at 1.
    rewrite execute_ok by exact H1.
    unfold bind, execute; simpl. rewrite H2. reflexivity. }
  rewrite send_chef_notification_reads; [| exact Hw |].
  - destruct (active_chefs (users (committed s))) as [|c cs]; [now left|].
    apply (deliver_committed e (c :: cs)
             (count_office (today e) (attendance (committed s)))
             (State (committed s) (committed s) (ops s + 3) (log s)
                (outbox s))).
  - intros k Hk. destruct k as [|[|[|k]]]; [| | |lia].
    + now rewrite Nat.add_0_r.
    + now replace (ops s + 1)%nat with (S (ops s)) by lia.
    + now replace (ops s + 2)%nat with (S (S (ops s))) by lia.
Qed.


(** ** The attendance query *)

Lemma date_leb_spec (a b : date) :
  PyDate.leb a b = true
  <-> year a < year b
      \/ (year a = year b
          /\ (month a < month b \/ (month a = month b /\ day a <= day b))).
Proof.
  unfold PyDate.leb, PyDate.cmp.
  destruct (Z.compare_spec (year a) (year b));
    [destruct (Z.compare_spec (month a) (month b));
      [destruct (Z.compare_spec (day a) (day b))|..]|..];
    split; intros; try reflexivity; try discriminate; lia.
Qed.

#[global] Instance date_desc_total : Total date_desc.
Proof.
  intros r1 r2. unfold date_desc. rewrite !date_leb_spec. lia.
Qed.

#[global] Instance date_desc_trans : Transitive date_desc.
Proof.
  intros r1 r2 r3. unfold date_desc. rewrite !date_leb_spec. lia.
Qed.

Lemma filter_ext_bool {A} (f g : A -> bool) (l : list A) :
  (forall x, f x = g x) -> List.filter f l = List.filter g l.
Proof.
  intros H. induction l as [|x l IH]; simpl; [reflexivity|].
  now rewrite H, IH.
Qed.

Lemma get_user_attendance_query (sql_date : string -> option date)
    (e : env) (u : Z) (start_date end_date : option string) (s : state) :
  available e ->
  forallb (well_formed sql_date) (query_of u start_date end_date) = true ->
  get_user_attendance sql_date e u start_date end_date s
  = (Ok (merge_sort date_desc
           (List.filter (row_matches sql_date (query_of u start_date end_date))
              (attendance (committed s)))),
     State (committed s) (committed s) (S (S (ops s))) (log s) (outbox s)).
Proof.
  intros Ha Hwf.
  unfold get_user_attendance. unfold bind at 1.
  rewrite get_db_connection_ok by apply Ha.
  unfold finally, bind.
  replace (match end_date with
           | Some lit => if truthy end_date then _ else _
           | None => _
           end) with (query_of u start_date end_date).
  2:{ unfold query_of, bound_condition.
      destruct start_date as [l1|], end_date as [l2|]; simpl;
        repeat match goal with
               | |- context [negb ?b] => destruct b; simpl
               end; reflexivity. }
  rewrite execute_ok by apply Ha.
  unfold sql_select_attendance. rewrite Hwf. reflexivity.
Qed.

Lemma bound_condition_ge (sql_date : string -> option date)
    (o : option string) (lo : option date) (r : attendance_row) :
  bound_of sql_date o = Some lo ->
  forallb (well_formed sql_date) (bound_condition DateGe o) = true
  /\ row_matches sql_date (bound_condition DateGe o) r
     = match lo with Some d => PyDate.leb d (a_date r) | None => true end.
Proof.
  unfold bound_of, bound_condition, truthy, row_matches.
  destruct o as [lit|]; [|intros [= <-]; auto].
  destruct (String.eqb lit ""); simpl; [intros [= <-]; auto|].
  destruct (sql_date lit) as [d|] eqn:E; simpl; [|discriminate].
  intros [= <-]. rewrite andb_true_r. auto.
Qed.

Lemma bound_condition_le (sql_date : string -> option date)
    (o : option string) (hi : option date) (r : attendance_row) :
  bound_of sql_date o = Some hi ->
  forallb (well_formed sql_date) (bound_condition DateLe o) = true
  /\ row_matches sql_date (bound_condition DateLe o) r
     = match hi with Some d => PyDate.leb (a_date r) d | None => true end.
Proof.
  unfold bound_of, bound_condition, truthy, row_matches.
  destruct o as [lit|]; [|intros [= <-]; auto].
  destruct (String.eqb lit ""); simpl; [intros [= <-]; auto|].
  destruct (sql_date lit) as [d|] eqn:E; simpl; [|discriminate].
  intros [= <-]. rewrite andb_true_r. auto.
Qed.

(** C9: with the database calls succeeding and each bound absent, empty or
    a date, the query answers with the stored records of the user whose
    dates lie between the bounds, both included: the answer is a
    rearrangement of exactly those records, in descending order of date.
    The store is not changed. *)
Theorem get_user_attendance_sorted_range (sql_date : string -> option date)
    (e : env) (u : Z) (start_date end_date : option string)
    (lo hi : option date) (s : state) :
  available e ->
  bound_of sql_date start_date = Some lo ->
  bound_of sql_date end_date = Some hi ->
  exists rows s',
    get_user_attendance sql_date e u start_date end_date s = (Ok rows, s')
    /\ committed s' = committed s
    /\ rows ≡ₚ List.filter (in_range u lo hi) (attendance (committed s))
    /\ StronglySorted date_desc rows.
Proof.
  intros Ha Hlo Hhi.
  assert (forall r, row_matches sql_date (query_of u start_date end_date) r
                    = in_range u lo hi r) as Hrows.
  { intros r. unfold query_of, row_matches, in_range.
    rewrite !forallb_app. simpl. rewrite andb_true_r.
    destruct (bound_condition_ge sql_date start_date lo r Hlo) as [_ H1].
    destruct (bound_condition_le sql_date end_date hi r Hhi) as [_ H2].
    unfold row_matches in H1, H2. now rewrite H1, H2, andb_assoc. }
  rewrite get_user_attendance_query; [|exact Ha|].
  - eexists _, _. split; [reflexivity|]. split; [reflexivity|].
    rewrite (filter_ext_bool _ _ _ Hrows). split.
    + apply merge_sort_Permutation.
    + apply StronglySorted_merge_sort; apply _.
  - unfold query_of. rewrite !forallb_app. simpl.
    destruct (bound_condition_ge sql_date start_date lo
                (AttendanceRow 0 (Date 1 1 1) "" 0) Hlo) as [-> _].
    destruct (bound_condition_le sql_date end_date hi
                (AttendanceRow 0 (Date 1 1 1) "" 0) Hhi) as [-> _].
    reflexivity.
Qed.

Lemma get_user_attendance_sorted_range_witness :
  fst (get_user_attendance iso_date monday_noon 7 (Some "2024-06-11")
         (Some "2024-06-12") (fresh week_of_records))
  = Ok [AttendanceRow 7 (Date 2024 6 12) "home" 2;
        AttendanceRow 7 (Date 2024 6 11) "leave" 4]
  /\ exists rows,
       fst (get_user_attendance iso_date monday_noon 7 (Some "2024-06-11")
              (Some "2024-06-12") (fresh week_of_records)) = Ok rows
       /\ StronglySorted date_desc rows.
Proof.
  split; [vm_compute; reflexivity|].
  destruct (get_user_attendance_sorted_range iso_date monday_noon 7
              (Some "2024-06-11") (Some "2024-06-12")
              (Some (Date 2024 6 11)) (Some (Date 2024 6 12))
              (fresh week_of_records))
    as (rows & s' & Hrun & _ & _ & Hs).
  - apply available_no_fault; reflexivity.
  - reflexivity.
  - reflexivity.
  - exists rows. rewrite Hrun. split; [reflexivity | exact Hs].
Defined.

(** ** The calendar behind the rollover *)

Lemma year_day_ok_all (leapyear : bool) (n : Z) :
  0 <= n < 365 -> year_day_ok leapyear n = true.
Proof.
  intros Hn.
  assert (forallb (year_day_ok leapyear) (map Z.of_nat (seq 0 365)) = true)
    as Hall by (destruct leapyear; vm_compute; reflexivity).
  rewrite forallb_forall in Hall. apply Hall.
  apply in_map_iff. exists (Z.to_nat n). split; [lia|].
  apply in_seq. lia.
Qed.

Lemma ymd_of_year_day_fields (y : Z) (leapyear : bool) (n : Z) :
  year (ymd_of_year_day y leapyear n) = y
  /\ month (ymd_of_year_day y leapyear n)
     = month (ymd_of_year_day 0 leapyear n)
  /\ day (ymd_of_year_day y leapyear n) = day (ymd_of_year_day 0 leapyear n).
Proof.
  unfold ymd_of_year_day. cbv zeta.
  destruct (n <? _); simpl; auto.
Qed.

Lemma ord2ymd_eq (o : Z) :
  ord2ymd o
  = let n := o - 1 in
    let n400 := n / 146097 in let n := n mod 146097 in
    let n100 := n / 36524 in let n := n mod 36524 in
    let n4 := n / 1461 in let n := n mod 1461 in
    let n1 := n / 365 in let n := n mod 365 in
    let y := n400 * 400 + 1 + n100 * 100 + n4 * 4 + n1 in
    if (n1 =? 4) || (n100 =? 4) then Date (y - 1) 12 31
    else ymd_of_year_day y
           ((n1 =? 3) && (negb (n4 =? 24) || (n100 =? 3))) n.
Proof. reflexivity. Qed.

(** [date.fromordinal] gives a date that [date(...)] accepts and whose
    ordinal is the one asked for. *)
Lemma ord2ymd_spec (o : Z) :
  0 < o <= MAXORDINAL ->
  toordinal (ord2ymd o) = o /\ valid (ord2ymd o) = true.
Proof.
  unfold MAXORDINAL. intros Ho. rewrite ord2ymd_eq. cbv zeta.
  set (n0 := o - 1).
  set (a := n0 / 146097). set (r1 := n0 mod 146097).
  set (b := r1 / 36524). set (r2 := r1 mod 36524).
  set (c := r2 / 1461). set (r3 := r2 mod 1461).
  set (e := r3 / 365). set (r := r3 mod 365).
  assert (n0 = 146097 * a + r1 /\ 0 <= r1 < 146097) as [E1 B1]
    by (subst a r1; Z.div_mod_to_equations; lia).
  assert (r1 = 36524 * b + r2 /\ 0 <= r2 < 36524) as [E2 B2]
    by (subst b r2; Z.div_mod_to_equations; lia).
  assert (r2 = 1461 * c + r3 /\ 0 <= r3 < 1461) as [E3 B3]
    by (subst c r3; Z.div_mod_to_equations; lia).
  assert (r3 = 365 * e + r /\ 0 <= r < 365) as [E4 B4]
    by (subst e r; Z.div_mod_to_equations; lia).
  assert (o = n0 + 1 /\ 0 <= n0 <= 3652058) as [E0 B0] by (subst n0; lia).
  clearbody a r1 b r2 c r3 e r n0.
  assert (0 <= a /\ 0 <= b <= 4 /\ 0 <= c <= 24 /\ 0 <= e <= 4) as Hb by lia.
  destruct ((e =? 4) || (b =? 4)) eqn:Hlast.
  - apply orb_true_iff in Hlast. rewrite !Z.eqb_eq in Hlast.
    assert (is_leap (a * 400 + 1 + b * 100 + c * 4 + e - 1) = true) as Hl.
    { unfold is_leap.
      rewrite andb_true_iff, orb_true_iff, negb_true_iff, !Z.eqb_eq,
        Z.eqb_neq.
      Z.div_mod_to_equations. lia. }
    unfold toordinal, ymd2ord, days_before_month, days_before_year, valid,
      days_in_month; simpl year; simpl month; simpl day. rewrite Hl.
    change (index DAYS_BEFORE_MONTH 12) with 334.
    change (index DAYS_IN_MONTH 12) with 31. simpl. split.
    + Z.div_mod_to_equations. lia.
    + rewrite !andb_true_iff, !Z.leb_le. lia.
  - apply orb_false_iff in Hlast. rewrite !Z.eqb_neq in Hlast.
    set (y := a * 400 + 1 + b * 100 + c * 4 + e).
    set (leap := (e =? 3) && (negb (c =? 24) || (b =? 3))).
    assert (is_leap y = leap) as Hl.
    { subst y leap. unfold is_leap. apply eq_true_iff_eq.
      rewrite !andb_true_iff, !orb_true_iff, !negb_true_iff, !Z.eqb_eq,
        !Z.eqb_neq.
      Z.div_mod_to_equations. lia. }
    assert (days_before_year y
            = 146097 * a + 36524 * b + 1461 * c + 365 * e) as Hy.
    { subst y. unfold days_before_year. Z.div_mod_to_equations. lia. }
    pose proof (year_day_ok_all leap r B4) as Hok.
    destruct (ymd_of_year_day_fields y leap r) as (Fy & Fm & Fd).
    unfold year_day_ok in Hok. cbv zeta in Hok.
    rewrite <- Fm, <- Fd in Hok.
    rewrite !andb_true_iff, !Z.leb_le, Z.eqb_eq in Hok.
    destruct Hok as ((((Hm1 & Hm2) & Hd1) & Hd2) & Hsum).
    unfold toordinal, ymd2ord, days_before_month, valid, days_in_month.
    rewrite Fy, Hl, Hy. split.
    + lia.
    + rewrite !andb_true_iff, !Z.leb_le. subst y. lia.
Qed.

(** Adding days moves the ordinal by as much and stays within the dates
    that exist. *)
Lemma add_days_spec (d t : date) (k : Z) :
  add_days d k = Some t ->
  toordinal t = toordinal d + k /\ valid t = true.
Proof.
  unfold add_days.
  destruct ((0 <? toordinal d + k) && (toordinal d + k <=? MAXORDINAL))
    eqn:E; [|discriminate].
  intros [= <-]. apply andb_true_iff in E as [E1 E2].
  apply Z.ltb_lt in E1. apply Z.leb_le in E2.
  now apply ord2ymd_spec.
Qed.

Lemma add_days_weekday (d t : date) :
  add_days d 1 = Some t -> weekday t = (weekday d + 1) mod 7.
Proof.
  intros H. apply add_days_spec in H as [H _].
  unfold weekday. rewrite H. Z.div_mod_to_equations. lia.
Qed.

(** ** Submission: errors, frame and invariants *)

Lemma insert_update_attendance_connect_fault (e : env) (u : Z) (d : date)
    (st msg : string) (s : state) (why : string) :
  db_fault e (ops s) = Some why ->
  insert_update_attendance e u d st msg s
  = (Raise (HTTPException 500 "Database connection failed"),
     State (committed s) (session s) (S (ops s))
       (log s ++ [(ERROR, "Database connection error: " +:+ why)])
       (outbox s)).
Proof.
  intros H.
  unfold insert_update_attendance, bind, get_db_connection, try_except,
    connect.
  now rewrite H.
Qed.

Lemma insert_update_attendance_execute_fault (e : env) (u : Z) (d : date)
    (st msg : string) (s : state) (why : string) :
  db_fault e (ops s) = None ->
  db_fault e (S (ops s)) = Some why ->
  insert_update_attendance e u d st msg s
  = (Raise (HTTPException 500 ("Failed to mark attendance: " +:+ why)),
     State (committed s) (committed s) (S (S (ops s))) (log s) (outbox s)).
Proof.
  intros H0 H1. unfold insert_update_attendance. unfold bind at 1.
  rewrite get_db_connection_ok by exact H0.
  unfold finally, try_except, bind, execute; simpl. now rewrite H1.
Qed.

Lemma insert_update_attendance_commit_fault (e : env) (u : Z) (d : date)
    (st msg : string) (s : state) (why : string) :
  db_fault e (ops s) = None ->
  db_fault e (S (ops s)) = None ->
  db_fault e (S (S (ops s))) = Some why ->
  insert_update_attendance e u d st msg s
  = (Raise (HTTPException 500 ("Failed to mark attendance: " +:+ why)),
     State (committed s) (committed s) (S (S (S (ops s)))) (log s)
       (outbox s)).
Proof.
  intros H0 H1 H2. unfold insert_update_attendance. unfold bind at 1.
  rewrite get_db_connection_ok by exact H0.
  unfold finally, try_except. unfold bind at 1.
  rewrite execute_ok by exact H1.
  unfold bind, commit; simpl. now rewrite H2.
Qed.

Lemma insert_update_attendance_no_fault (e : env) (u : Z) (d : date)
    (st msg : string) (s : state) :
  db_fault e (ops s) = None ->
  db_fault e (S (ops s)) = None ->
  db_fault e (S (S (ops s))) = None ->
  let db' := Database (upsert_attendance (CURRENT_TIMESTAMP e) u d st
                         (attendance (committed s)))
                      (users (committed s)) (notifications (committed s)) in
  insert_update_attendance e u d st msg s
  = (Ok {| resp_message := msg; resp_date := isoformat d |},
     State db' db' (S (S (S (ops s)))) (log s) (outbox s)).
Proof.
  intros H0 H1 H2 db'. unfold insert_update_attendance. unfold bind at 1.
  rewrite get_db_connection_ok by exact H0.
  unfold finally, try_except. unfold bind at 1.
  rewrite execute_ok by exact H1. unfold bind at 1.
  rewrite commit_ok by exact H2. reflexivity.
Qed.

(** Whatever the database does, the block either fails and leaves the
    committed data alone, or succeeds and commits the upsert; it touches
    no other table and posts nothing. *)
Lemma insert_update_attendance_shape (e : env) (u : Z) (d : date)
    (st msg : string) (s : state) :
  let r := insert_update_attendance e u d st msg s in
  users (committed (snd r)) = users (committed s)
  /\ notifications (committed (snd r)) = notifications (committed s)
  /\ outbox (snd r) = outbox s
  /\ ((exists code detail,
         fst r = Raise (HTTPException code detail)
         /\ committed (snd r) = committed s)
      \/ (fst r = Ok {| resp_message := msg; resp_date := isoformat d |}
          /\ attendance (committed (snd r))
             = upsert_attendance (CURRENT_TIMESTAMP e) u d st
                 (attendance (committed s)))).
Proof.
  cbv zeta.
  destruct (db_fault e (ops s)) as [w0|] eqn:H0.
  { rewrite (insert_update_attendance_connect_fault _ _ _ _ _ _ _ H0).
    simpl. repeat split. left. eauto. }
  destruct (db_fault e (S (ops s))) as [w1|] eqn:H1.
  { rewrite (insert_update_attendance_execute_fault _ _ _ _ _ _ _ H0 H1).
    simpl. repeat split. left. eauto. }
  destruct (db_fault e (S (S (ops s)))) as [w2|] eqn:H2.
  { rewrite (insert_update_attendance_commit_fault _ _ _ _ _ _ _ H0 H1 H2).
    simpl. repeat split. left. eauto. }
  rewrite (insert_update_attendance_no_fault _ _ _ _ _ _ H0 H1 H2).
  simpl. repeat split. right. auto.
Qed.

(** Where a submission can go: it is turned down before the database is
    touched, or it reaches the store with the requested date, or with the
    day after today. *)
Lemma mark_attendance_shape (strptime_ymd : string -> option date)
    (e : env) (req : AttendanceRequest) (u : Z) (s : state) :
  (exists ex, mark_attendance strptime_ymd e req u s = (Raise ex, s))
  \/ (exists d d' msg,
        strptime_ymd (req_date req) = Some d
        /\ is_weekend d = false
        /\ ((d' = d /\ msg = MSG_MARKED)
            \/ (d = today e /\ is_after_cutoff_time e = true
                /\ add_days d 1 = Some d' /\ msg = MSG_ROLLED_OVER))
        /\ mark_attendance strptime_ymd e req u s
           = insert_update_attendance e u d' (req_status req) msg s).
Proof.
  destruct (strptime_ymd (req_date req)) as [d|] eqn:Hp.
  2:{ left. unfold mark_attendance, bind, try_except. rewrite Hp.
      simpl. eauto. }
  destruct (is_weekend d) eqn:Hw.
  { left. unfold mark_attendance, bind, try_except. rewrite Hp. simpl.
    rewrite Hw. eauto. }
  rewrite (mark_attendance_parsed _ _ _ _ _ _ Hp Hw).
  destruct (PyDate.eqb d (today e)) eqn:Ed; simpl.
  - apply date_eqb_eq in Ed.
    destruct (is_after_cutoff_time e) eqn:Ec.
    + destruct (add_days (today e) 1) as [t|] eqn:Ea.
      * right. exists d, t, MSG_ROLLED_OVER. subst d. intuition.
      * left. eauto.
    + right. exists d, d, MSG_MARKED. intuition.
  - right. exists d, d, MSG_MARKED. intuition.
Qed.

(** X1: a date string that does not parse is answered with 400 "Invalid
    date format" before anything else happens: no database call, no log
    record, the state is returned as it was. *)
Theorem mark_attendance_invalid_date (strptime_ymd : string -> option date)
    (e : env) (req : AttendanceRequest) (u : Z) (s : state) :
  strptime_ymd (req_date req) = None ->
  mark_attendance strptime_ymd e req u s
  = (Raise (HTTPException 400 "Invalid date format"), s).
Proof.
  intros Hp. unfold mark_attendance, bind, try_except. now rewrite Hp.
Qed.

Lemma mark_attendance_invalid_date_witness :
  mark_attendance iso_date monday_noon (office_request "10/06/2024") 7
    (fresh empty_db)
  = (Raise (HTTPException 400 "Invalid date format"), fresh empty_db).
Proof.
  apply (mark_attendance_invalid_date iso_date monday_noon
           (office_request "10/06/2024") 7 (fresh empty_db)).
  reflexivity.
Defined.

(** X2: a submission that ends in an error has written nothing: the
    committed data is what it was before the call. *)
Theorem mark_attendance_error_writes_nothing
    (strptime_ymd : string -> option date) (e : env)
    (req : AttendanceRequest) (u : Z) (s : state) (ex : exn) :
  fst (mark_attendance strptime_ymd e req u s) = Raise ex ->
  committed (snd (mark_attendance strptime_ymd e req u s)) = committed s.
Proof.
  intros Hr.
  destruct (mark_attendance_shape strptime_ymd e req u s)
    as [[ex' H] | (d & d' & msg & _ & _ & _ & H)]; rewrite H in *.
  - reflexivity.
  - destruct (insert_update_attendance_shape e u d' (req_status req) msg s)
      as (_ & _ & _ & [(c & dt & _ & Hc) | [Hok _]]).
    + exact Hc.
    + rewrite Hok in Hr. discriminate.
Qed.

Lemma mark_attendance_error_writes_nothing_witness :
  committed (snd (mark_attendance iso_date
                    (monday_noon_with statement_fails)
                    (office_request "2024-06-11") 7 (fresh tuesday_office)))
  = tuesday_office.
Proof.
  apply (mark_attendance_error_writes_nothing iso_date
           (monday_noon_with statement_fails) (office_request "2024-06-11")
           7 (fresh tuesday_office)
           (HTTPException 500
              "Failed to mark attendance: Lock wait timeout exceeded")).
  reflexivity.
Defined.

Lemma mark_attendance_reaches_store (strptime_ymd : string -> option date)
    (e : env) (req : AttendanceRequest) (u : Z) (d : date) (s : state) :
  strptime_ymd (req_date req) = Some d ->
  weekday d < 5 ->
  add_days (today e) 1 <> None ->
  exists d' msg,
    mark_attendance strptime_ymd e req u s
    = insert_update_attendance e u d' (req_status req) msg s.
Proof.
  intros Hp Hw Ha. apply is_weekday_spec in Hw.
  rewrite (mark_attendance_parsed _ _ _ _ _ _ Hp Hw).
  destruct (PyDate.eqb d (today e) && is_after_cutoff_time e); [|eauto].
  destruct (add_days (today e) 1); [eauto | congruence].
Qed.

(** X3: when the connection cannot be opened, a submission that got past
    the date checks is answered with 500 "Database connection failed"; the
    error is logged and nothing is stored. *)
Theorem mark_attendance_connection_failure
    (strptime_ymd : string -> option date) (e : env)
    (req : AttendanceRequest) (u : Z) (d : date) (s : state)
    (why : string) :
  strptime_ymd (req_date req) = Some d ->
  weekday d < 5 ->
  add_days (today e) 1 <> None ->
  db_fault e (ops s) = Some why ->
  mark_attendance strptime_ymd e req u s
  = (Raise (HTTPException 500 "Database connection failed"),
     State (committed s) (session s) (S (ops s))
       (log s ++ [(ERROR, "Database connection error: " +:+ why)])
       (outbox s)).
Proof.
  intros Hp Hw Ha Hf.
  destruct (mark_attendance_reaches_store strptime_ymd e req u d s Hp Hw Ha)
    as (d' & msg & ->).
  now apply insert_update_attendance_connect_fault.
Qed.

Lemma mark_attendance_connection_failure_witness :
  mark_attendance iso_date (monday_noon_with connection_refused)
    (office_request "2024-06-11") 7 (fresh tuesday_office)
  = (Raise (HTTPException 500 "Database connection failed"),
     State tuesday_office tuesday_office 1
       [(ERROR, "Database connection error: Can't connect to MySQL server")]
       []).
Proof.
  apply (mark_attendance_connection_failure iso_date
           (monday_noon_with connection_refused)
           (office_request "2024-06-11") 7 (Date 2024 6 11)
           (fresh tuesday_office) "Can't connect to MySQL server").
  - reflexivity.
  - reflexivity.
  - discriminate.
  - reflexivity.
Defined.

(** X4: when the statement or the commit fails, the submission is rolled
    back and answered with 500 "Failed to mark attendance: <error>": the
    committed data and the connection's view are those from before. *)
Theorem mark_attendance_write_failure
    (strptime_ymd : string -> option date) (e : env)
    (req : AttendanceRequest) (u : Z) (d : date) (s : state)
    (why : string) :
  strptime_ymd (req_date req) = Some d ->
  weekday d < 5 ->
  add_days (today e) 1 <> None ->
  db_fault e (ops s) = None ->
  db_fault e (S (ops s)) = Some why
  \/ (db_fault e (S (ops s)) = None /\ db_fault e (S (S (ops s))) = Some why) ->
  exists s',
    mark_attendance strptime_ymd e req u s
    = (Raise (HTTPException 500 ("Failed to mark attendance: " +:+ why)), s')
    /\ committed s' = committed s
    /\ session s' = committed s
    /\ log s' = log s.
Proof.
  intros Hp Hw Ha H0 Hf.
  destruct (mark_attendance_reaches_store strptime_ymd e req u d s Hp Hw Ha)
    as (d' & msg & ->).
  destruct Hf as [H1 | [H1 H2]].
  - rewrite (insert_update_attendance_execute_fault _ _ _ _ _ _ _ H0 H1).
    eexists; repeat split.
  - rewrite (insert_update_attendance_commit_fault _ _ _ _ _ _ _ H0 H1 H2).
    eexists; repeat split.
Qed.

Lemma mark_attendance_write_failure_witness :
  fst (mark_attendance iso_date (monday_noon_with statement_fails)
         (office_request "2024-06-11") 7 (fresh tuesday_office))
  = Raise (HTTPException 500
             "Failed to mark attendance: Lock wait timeout exceeded").
Proof.
  destruct (mark_attendance_write_failure iso_date
              (monday_noon_with statement_fails)
              (office_request "2024-06-11") 7 (Date 2024 6 11)
              (fresh tuesday_office) "Lock wait timeout exceeded")
    as (s' & -> & _).
  - reflexivity.
  - reflexivity.
  - discriminate.
  - reflexivity.
  - left; reflexivity.
  - reflexivity.
Defined.

(** X5: whatever the request, the clock and the database do, a submission
    changes neither the users nor the notification log, and sends no
    mail. *)
Theorem mark_attendance_touches_attendance_only
    (strptime_ymd : string -> option date) (e : env)
    (req : AttendanceRequest) (u : Z) (s : state) :
  let s' := snd (mark_attendance strptime_ymd e req u s) in
  users (committed s') = users (committed s)
  /\ notifications (committed s') = notifications (committed s)
  /\ outbox s' = outbox s.
Proof.
  cbv zeta.
  destruct (mark_attendance_shape strptime_ymd e req u s)
    as [[ex' H] | (d & d' & msg & _ & _ & _ & H)]; rewrite H.
  - auto.
  - destruct (insert_update_attendance_shape e u d' (req_status req) msg s)
      as (Hu & Hn & Ho & _). auto.
Qed.

Lemma upsert_attendance_other_user (ts u u' : Z) (d : date) (st : string)
    (t : list attendance_row) :
  u' <> u ->
  List.filter (of_user u') (upsert_attendance ts u d st t)
  = List.filter (of_user u') t.
Proof.
  intros Hne. unfold upsert_attendance.
  destruct (existsb (same_key u d) t).
  - induction t as [|r t IH]; simpl; [reflexivity|].
    destruct (same_key u d r) eqn:E.
    + apply same_key_eq in E as [Eu _].
      assert (of_user u' r = false) as Hr
        by (unfold of_user; rewrite Eu; now apply Z.eqb_neq).
      assert (of_user u' (AttendanceRow (a_user_id r) (a_date r) st ts)
              = false) as Hr'
        by (unfold of_user; simpl; rewrite Eu; now apply Z.eqb_neq).
      now rewrite Hr, Hr'.
    + now rewrite IH.
  - rewrite List.filter_app; simpl.
    assert (of_user u' (AttendanceRow u d st ts) = false) as ->
      by (unfold of_user; simpl; now apply Z.eqb_neq).
    now rewrite app_nil_r.
Qed.

(** X6: a submission made for one user never changes the stored records
    of another user, whatever else happens. *)
Theorem mark_attendance_other_users_untouched
    (strptime_ymd : string -> option date) (e : env)
    (req : AttendanceRequest) (u u' : Z) (s : state) :
  u' <> u ->
  List.filter (of_user u')
    (attendance (committed (snd (mark_attendance strptime_ymd e req u s))))
  = List.filter (of_user u') (attendance (committed s)).
Proof.
  intros Hne.
  destruct (mark_attendance_shape strptime_ymd e req u s)
    as [[ex' H] | (d & d' & msg & _ & _ & _ & H)]; rewrite H.
  - reflexivity.
  - destruct (insert_update_attendance_shape e u d' (req_status req) msg s)
      as (_ & _ & _ & [(c & dt & _ & Hc) | [_ Hup]]).
    + now rewrite Hc.
    + rewrite Hup. now apply upsert_attendance_other_user.
Qed.

Lemma mark_attendance_other_users_untouched_witness :
  List.filter (of_user 1)
    (attendance (committed (snd (mark_attendance iso_date monday_noon
       (office_request "2024-06-11") 3 (fresh tuesday_office)))))
  = [AttendanceRow 1 (Date 2024 6 11) "office" 10;
     AttendanceRow 1 (Date 2024 6 12) "office" 14].
Proof.
  rewrite (mark_attendance_other_users_untouched iso_date monday_noon
             (office_request "2024-06-11") 3 1 (fresh tuesday_office)).
  - reflexivity.
  - discriminate.
Defined.

(** The statement changes no key and adds at most the one it is given. *)
Lemma upsert_attendance_key_list (ts u : Z) (d : date) (st : string)
    (t : list attendance_row) :
  map key (upsert_attendance ts u d st t)
  = map key t ++ (if existsb (same_key u d) t then [] else [(u, d)]).
Proof.
  unfold upsert_attendance. destruct (existsb (same_key u d) t).
  - rewrite app_nil_r, map_map. apply map_ext. intros r.
    now destruct (same_key u d r).
  - now rewrite map_app.
Qed.

Lemma key_absent (u : Z) (d : date) (t : list attendance_row) :
  existsb (same_key u d) t = false -> ~ In (u, d) (map key t).
Proof.
  intros H Hin. apply in_map_iff in Hin as (r & Hk & Hr).
  assert (existsb (same_key u d) t = true) as Ht; [|congruence].
  apply existsb_exists. exists r. split; [exact Hr|].
  apply same_key_eq. unfold key in Hk. now inversion Hk.
Qed.

Lemma upsert_attendance_NoDup (ts u : Z) (d : date) (st : string)
    (t : list attendance_row) :
  NoDup (map key t) -> NoDup (map key (upsert_attendance ts u d st t)).
Proof.
  intros Hnd. rewrite upsert_attendance_key_list.
  destruct (existsb (same_key u d) t) eqn:E.
  - now rewrite app_nil_r.
  - apply NoDup_app. split; [exact Hnd|]. split.
    + intros k Hk Hin. apply list_elem_of_In in Hk.
      apply list_elem_of_In in Hin. destruct Hin as [<-|[]].
      now apply (key_absent u d t E).
    + apply NoDup_singleton.
Qed.

(** X7: the stored records stay unique per (user, date): if no two rows
    share a key before a submission, none do after it, whatever the
    request, the clock and the database do. *)
Theorem mark_attendance_keeps_unique_key
    (strptime_ymd : string -> option date) (e : env)
    (req : AttendanceRequest) (u : Z) (s : state) :
  NoDup (map key (attendance (committed s))) ->
  NoDup (map key (attendance
           (committed (snd (mark_attendance strptime_ymd e req u s))))).
Proof.
  intros Hnd.
  destruct (mark_attendance_shape strptime_ymd e req u s)
    as [[ex' H] | (d & d' & msg & _ & _ & _ & H)]; rewrite H.
  - exact Hnd.
  - destruct (insert_update_attendance_shape e u d' (req_status req) msg s)
      as (_ & _ & _ & [(c & dt & _ & Hc) | [_ Hup]]).
    + now rewrite Hc.
    + rewrite Hup. now apply upsert_attendance_NoDup.
Qed.

Lemma mark_attendance_keeps_unique_key_witness :
  NoDup (map key (attendance (committed (snd (mark_attendance iso_date
    monday_noon (office_request "2024-06-11") 3 (fresh tuesday_office)))))).
Proof.
  apply (mark_attendance_keeps_unique_key iso_date monday_noon
           (office_request "2024-06-11") 3 (fresh tuesday_office)).
  apply NoDup_ListNoDup. unfold key; simpl.
  repeat (constructor; [simpl; intuition congruence|]). constructor.
Defined.

Lemma upsert_attendance_has_row (ts u : Z) (d : date) (st : string)
    (t : list attendance_row) :
  In (AttendanceRow u d st ts) (upsert_attendance ts u d st t).
Proof.
  unfold upsert_attendance. destruct (existsb (same_key u d) t) eqn:E.
  - apply existsb_exists in E as (r & Hin & Hk).
    apply in_map_iff. exists r. split; [|exact Hin].
    rewrite Hk. apply same_key_eq in Hk as [-> ->]. reflexivity.
  - apply in_or_app. right. now left.
Qed.

Lemma upsert_attendance_dates (Q : date -> Prop) (ts u : Z) (d : date)
    (st : string) (t : list attendance_row) :
  Forall (fun r => Q (a_date r)) t ->
  Q d ->
  Forall (fun r => Q (a_date r)) (upsert_attendance ts u d st t).
Proof.
  intros Ht Hd. unfold upsert_attendance.
  destruct (existsb (same_key u d) t).
  - induction Ht as [|r t Hr _ IH]; simpl; constructor; [|exact IH].
    now destruct (same_key u d r).
  - induction Ht as [|r t Hr _ IH]; simpl; constructor; auto.
Qed.

(** X8: every same-day submission made on a Friday after the cutoff is
    accepted and stored under the next day, which is a Saturday: the
    weekend check has already been passed when the date is moved. *)
Theorem mark_attendance_friday_rollover_is_saturday
    (strptime_ymd : string -> option date) (e : env)
    (req : AttendanceRequest) (u : Z) (d tomorrow : date) (s : state) :
  strptime_ymd (req_date req) = Some d ->
  d = today e ->
  weekday d = 4 ->
  is_after_cutoff_time e = true ->
  add_days d 1 = Some tomorrow ->
  available e ->
  exists s',
    mark_attendance strptime_ymd e req u s
    = (Ok {| resp_message := MSG_ROLLED_OVER;
             resp_date := isoformat tomorrow |}, s')
    /\ weekday tomorrow = 5
    /\ is_weekend tomorrow = true
    /\ In (AttendanceRow u tomorrow (req_status req) (CURRENT_TIMESTAMP e))
          (attendance (committed s')).
Proof.
  intros Hp Ht Hw Hc Hadd Ha.
  assert (is_weekend d = false) as Hwd by (apply is_weekday_spec; lia).
  rewrite (mark_attendance_parsed _ _ _ _ _ _ Hp Hwd).
  subst d. rewrite (proj2 (date_eqb_eq _ _) eq_refl), Hc, Hadd; simpl.
  rewrite insert_update_attendance_ok by exact Ha.
  assert (weekday tomorrow = 5) as H5.
  { rewrite (add_days_weekday _ _ Hadd), Hw. reflexivity. }
  eexists; split; [reflexivity|]. simpl. split; [exact H5|]. split.
  - apply is_weekend_spec. now left.
  - apply upsert_attendance_has_row.
Qed.

Lemma mark_attendance_friday_rollover_is_saturday_witness :
  exists s',
    mark_attendance iso_date friday_evening (office_request "2024-06-14") 7
      (fresh empty_db)
    = (Ok {| resp_message := MSG_ROLLED_OVER; resp_date := "2024-06-15" |},
       s')
    /\ is_weekend (Date 2024 6 15) = true.
Proof.
  destruct (mark_attendance_friday_rollover_is_saturday iso_date
              friday_evening (office_request "2024-06-14") 7
              (Date 2024 6 14) (Date 2024 6 15) (fresh empty_db))
    as (s' & Hrun & _ & Hw & _).
  - reflexivity.
  - reflexivity.
  - reflexivity.
  - reflexivity.
  - reflexivity.
  - apply available_no_fault; reflexivity.
  - exists s'. split; [exact Hrun | exact Hw].
Defined.

(** X9: as long as today is not a Friday, or the cutoff has not passed, a
    submission keeps the store free of weekend dates: if every stored
    record is on a working day before the call, so is every record after
    it, whatever the request and the database do. *)
Theorem mark_attendance_keeps_working_days
    (strptime_ymd : string -> option date) (e : env)
    (req : AttendanceRequest) (u : Z) (s : state) :
  weekday (today e) <> 4 \/ is_after_cutoff_time e = false ->
  Forall working_day (attendance (committed s)) ->
  Forall working_day
    (attendance (committed (snd (mark_attendance strptime_ymd e req u s)))).
Proof.
  intros Hsafe Hinv.
  destruct (mark_attendance_shape strptime_ymd e req u s)
    as [[ex' H] | (d & d' & msg & _ & Hwd & Hres & H)]; rewrite H.
  - exact Hinv.
  - destruct (insert_update_attendance_shape e u d' (req_status req) msg s)
      as (_ & _ & _ & [(c & dt & _ & Hc) | [_ Hup]]).
    + now rewrite Hc.
    + rewrite Hup. apply (upsert_attendance_dates
                            (fun x => is_weekend x = false)); [exact Hinv|].
      destruct Hres as [[-> _] | (Ht & Hcut & Hadd & _)]; [exact Hwd|].
      destruct Hsafe as [Hfri | Hbefore]; [|congruence].
      apply is_weekday_spec. apply is_weekday_spec in Hwd.
      rewrite (add_days_weekday _ _ Hadd). subst d.
      pose proof (weekday_range (today e)).
      Z.div_mod_to_equations. lia.
Qed.

Lemma mark_attendance_keeps_working_days_witness :
  Forall working_day
    (attendance (committed (snd (mark_attendance iso_date monday_evening
       (office_request "2024-06-10") 7 (fresh tuesday_office))))).
Proof.
  apply (mark_attendance_keeps_working_days iso_date monday_evening
           (office_request "2024-06-10") 7 (fresh tuesday_office)).
  - left. vm_compute. discriminate.
  - repeat constructor.
Defined.

(** X10: a successful answer tells the truth about the store: the reply
    names a date, and a record with exactly that date, the user, the
    submitted status and the server's timestamp is committed.  With the
    plain message the date is the requested one; with the rollover message
    the request was for today and the date is a valid calendar date whose
    ordinal is today's plus one. *)
Theorem mark_attendance_reply_sound
    (strptime_ymd : string -> option date) (e : env)
    (req : AttendanceRequest) (u : Z) (s : state) (reply : AttendanceReply) :
  fst (mark_attendance strptime_ymd e req u s) = Ok reply ->
  exists d d',
    strptime_ymd (req_date req) = Some d
    /\ resp_date reply = isoformat d'
    /\ In (AttendanceRow u d' (req_status req) (CURRENT_TIMESTAMP e))
          (attendance
             (committed (snd (mark_attendance strptime_ymd e req u s))))
    /\ ((resp_message reply = MSG_MARKED /\ d' = d)
        \/ (resp_message reply = MSG_ROLLED_OVER /\ d = today e
            /\ toordinal d' = toordinal (today e) + 1
            /\ valid d' = true)).
Proof.
  intros Hr.
  destruct (mark_attendance_shape strptime_ymd e req u s)
    as [[ex' H] | (d & d' & msg & Hp & _ & Hres & H)]; rewrite H in *.
  - discriminate.
  - destruct (insert_update_attendance_shape e u d' (req_status req) msg s)
      as (_ & _ & _ & [(c & dt & Hex & _) | [Hok Hup]]).
    + rewrite Hex in Hr. discriminate.
    + rewrite Hok in Hr. injection Hr as <-. simpl.
      exists d, d'. split; [exact Hp|]. split; [reflexivity|]. split.
      * rewrite Hup. apply upsert_attendance_has_row.
      * destruct Hres as [[-> ->] | (Ht & _ & Hadd & ->)]; [now left|].
        right. destruct (add_days_spec _ _ _ Hadd) as [Ho Hv].
        subst d. auto.
Qed.

Lemma mark_attendance_reply_sound_witness :
  exists d',
    "2024-06-11" = isoformat d'
    /\ In (AttendanceRow 7 d' "office" 1718055900)
          (attendance (committed (snd (mark_attendance iso_date
             monday_evening (office_request "2024-06-10") 7
             (fresh empty_db))))).
Proof.
  destruct (mark_attendance_reply_sound iso_date monday_evening
              (office_request "2024-06-10") 7 (fresh empty_db)
              {| resp_message := MSG_ROLLED_OVER;
                 resp_date := "2024-06-11" |})
    as (d & d' & _ & Hd & Hin & _).
  - reflexivity.
  - exists d'. split; [exact Hd | exact Hin].
Defined.

(** X11: the cutoff test looks at the time of day only and is strict: it
    holds exactly when more than 21 h 30 min have passed since midnight,
    so 21:30:00.000000 itself is still before the cutoff. *)
Theorem is_after_cutoff_time_strict (e : env) :
  valid_time (now e) ->
  (is_after_cutoff_time e = true
   <-> micros_of_day (now e) > (21 * 60 + 30) * 60 * 1000000)
  /\ (hour (now e) = 21 -> minute (now e) = 30 -> second (now e) = 0 ->
      microsecond (now e) = 0 -> is_after_cutoff_time e = false).
Proof.
  intros Hv. pose proof (is_after_cutoff_time_spec e Hv) as H.
  unfold CUTOFF_MICROS in H. split; [exact H|].
  intros Hh Hm Hs Hu. destruct (is_after_cutoff_time e); [|reflexivity].
  assert (micros_of_day (now e) > (21 * 60 + 30) * 60 * 1000000) as Hgt
    by now apply H.
  unfold micros_of_day in Hgt. rewrite Hh, Hm, Hs, Hu in Hgt. lia.
Qed.

Lemma is_after_cutoff_time_strict_witness :
  is_after_cutoff_time
    (Env (Date 2024 6 10) (DateTime (Date 2024 6 10) 21 30 0 0) 0 no_fault
         None gateway_up) = false
  /\ is_after_cutoff_time
       (Env (Date 2024 6 10) (DateTime (Date 2024 6 10) 21 30 0 1) 0
            no_fault None gateway_up) = true.
Proof.
  split.
  - apply (is_after_cutoff_time_strict
             (Env (Date 2024 6 10) (DateTime (Date 2024 6 10) 21 30 0 0) 0
                  no_fault None gateway_up)); try reflexivity.
    unfold valid_time; simpl; lia.
  - reflexivity.
Defined.

(** ** The upsert statement and the office count *)

Lemma upsert_attendance_present (ts u : Z) (d : date) (st : string)
    (t : list attendance_row) :
  existsb (same_key u d) (upsert_attendance ts u d st t) = true.
Proof.
  apply existsb_exists. exists (AttendanceRow u d st ts).
  split; [apply upsert_attendance_has_row | apply same_key_new].
Qed.

Lemma upsert_attendance_idempotent (ts u : Z) (d : date) (st : string)
    (t : list attendance_row) :
  upsert_attendance ts u d st (upsert_attendance ts u d st t)
  = upsert_attendance ts u d st t.
Proof.
  unfold upsert_attendance at 1. rewrite upsert_attendance_present.
  unfold upsert_attendance. destruct (existsb (same_key u d) t) eqn:E.
  - rewrite map_map. apply map_ext. intros r.
    destruct (same_key u d r) eqn:Er; [|now rewrite Er].
    apply same_key_eq in Er as [-> ->]. now rewrite same_key_new.
  - rewrite map_app. simpl. rewrite same_key_new. f_equal.
    clear - E. induction t as [|r t IH]; simpl in *; [reflexivity|].
    apply orb_false_iff in E as [Er Et]. rewrite Er. now rewrite IH.
Qed.

(** X12: a submission repeated with the same request under the same clock
    readings changes nothing any more: after the second call the committed
    data is exactly what it was after the first, when the database calls
    succeed. *)
Theorem mark_attendance_twice (strptime_ymd : string -> option date)
    (e : env) (req : AttendanceRequest) (u : Z) (s : state) :
  available e ->
  let s1 := snd (mark_attendance strptime_ymd e req u s) in
  committed (snd (mark_attendance strptime_ymd e req u s1)) = committed s1.
Proof.
  intros Ha. cbv zeta.
  destruct (strptime_ymd (req_date req)) as [d|] eqn:Hp.
  2:{ assert (forall s0, mark_attendance strptime_ymd e req u s0
                = (Raise (HTTPException 400 "Invalid date format"), s0))
        as H.
      { intros s0. unfold mark_attendance, bind, try_except.
        now rewrite Hp. }
      now rewrite !H. }
  destruct (is_weekend d) eqn:Hw.
  { assert (forall s0, mark_attendance strptime_ymd e req u s0
              = (Raise (HTTPException 400
                          "Cannot mark attendance on weekends"), s0)) as H.
    { intros s0. unfold mark_attendance, bind, try_except. rewrite Hp.
      simpl. now rewrite Hw. }
    now rewrite !H. }
  rewrite !(mark_attendance_parsed _ _ _ _ _ _ Hp Hw).
  destruct (PyDate.eqb d (today e) && is_after_cutoff_time e).
  - destruct (add_days (today e) 1) as [t|]; [|reflexivity].
    rewrite !insert_update_attendance_ok by exact Ha. simpl.
    now rewrite upsert_attendance_idempotent.
  - rewrite !insert_update_attendance_ok by exact Ha. simpl.
    now rewrite upsert_attendance_idempotent.
Qed.

Lemma mark_attendance_twice_witness :
  let s1 := snd (mark_attendance iso_date monday_noon
                   (office_request "2024-06-11") 3 (fresh tuesday_office)) in
  committed (snd (mark_attendance iso_date monday_noon
                    (office_request "2024-06-11") 3 s1)) = committed s1.
Proof.
  apply (mark_attendance_twice iso_date monday_noon
           (office_request "2024-06-11") 3 (fresh tuesday_office)).
  apply available_no_fault; reflexivity.
Defined.

Lemma count_office_cons (d' : date) (r : attendance_row)
    (t : list attendance_row) :
  count_office d' (r :: t)
  = (if PyDate.eqb (a_date r) d' && String.eqb (a_status r) "office"
     then 1 else 0) + count_office d' t.
Proof.
  unfold count_office; simpl.
  destruct (PyDate.eqb (a_date r) d' && String.eqb (a_status r) "office");
    simpl length; lia.
Qed.

Lemma count_office_app (d' : date) (t1 t2 : list attendance_row) :
  count_office d' (t1 ++ t2) = count_office d' t1 + count_office d' t2.
Proof.
  induction t1 as [|r t1 IH]; simpl; [reflexivity|].
  rewrite !count_office_cons, IH. lia.
Qed.

Lemma count_office_updated (d' : date) (ts u : Z) (d : date) (st : string)
    (t : list attendance_row) :
  count_office d'
    (map (fun r => if same_key u d r
                   then AttendanceRow (a_user_id r) (a_date r) st ts
                   else r) t)
  = count_office d' t - count_office d' (rows_for u d t)
    + Z.of_nat (length (rows_for u d t))
      * (if PyDate.eqb d d' && String.eqb st "office" then 1 else 0).
Proof.
  unfold rows_for. induction t as [|r t IH]; simpl; [reflexivity|].
  rewrite !count_office_cons, IH.
  destruct (same_key u d r) eqn:E; simpl.
  - rewrite count_office_cons. apply same_key_eq in E as [_ Ed].
    rewrite Ed. simpl length. lia.
  - lia.
Qed.

(** X13: how the upsert moves the office count of a day.  On a table with
    at most one row for (u, d), the count for day [d'] after the statement
    is the count before, less the old row of the key if it counted, plus
    one if the new status is "office" and d is that day; a new "office"
    record therefore adds exactly one and other days are not affected. *)
Theorem count_office_after_upsert (d' : date) (ts u : Z) (d : date)
    (st : string) (t : list attendance_row) :
  (length (rows_for u d t) <= 1)%nat ->
  count_office d' (upsert_attendance ts u d st t)
  = count_office d' t - count_office d' (rows_for u d t)
    + (if PyDate.eqb d d' && String.eqb st "office" then 1 else 0).
Proof.
  intros Hlen. unfold upsert_attendance.
  destruct (existsb (same_key u d) t) eqn:E.
  - rewrite count_office_updated. apply rows_for_some in E.
    destruct (rows_for u d t) as [|r [|r' l]]; simpl in *;
      [congruence | lia | lia].
  - rewrite count_office_app, (rows_for_none _ _ _ E).
    rewrite count_office_cons. simpl.
    change (count_office d' []) with 0. lia.
Qed.

(** The spec's scenario: three employees in the office and one at home on
    2024-06-11 give a count of 3, and a fourth office record makes it 4. *)
Lemma count_office_after_upsert_witness :
  count_office (Date 2024 6 11) (attendance tuesday_office) = 3
  /\ count_office (Date 2024 6 11)
       (upsert_attendance 20 5 (Date 2024 6 11) "office"
          (attendance tuesday_office)) = 4
  /\ count_office (Date 2024 6 11)
       (upsert_attendance 20 1 (Date 2024 6 11) "home"
          (attendance tuesday_office)) = 2.
Proof.
  split; [reflexivity|]. split.
  - rewrite (count_office_after_upsert (Date 2024 6 11) 20 5
               (Date 2024 6 11) "office" (attendance tuesday_office)).
    + reflexivity.
    + simpl; lia.
  - reflexivity.
Defined.

(** ** Database calls that fail *)

Lemma get_db_connection_fault (e : env) (s : state) (why : string) :
  db_fault e (ops s) = Some why ->
  get_db_connection e s
  = (Raise (HTTPException 500 "Database connection failed"),
     State (committed s) (session s) (S (ops s))
       (log s ++ [(ERROR, "Database connection error: " +:+ why)])
       (outbox s)).
Proof.
  intros H. unfold get_db_connection, try_except, connect. now rewrite H.
Qed.

Lemma execute_fault {A} (e : env) (q : database -> result A * database)
    (s : state) (why : string) :
  db_fault e (ops s) = Some why ->
  execute e q s = (Raise (Error why), tick s).
Proof. intros H. unfold execute. now rewrite H. Qed.

Lemma commit_fault (e : env) (s : state) (why : string) :
  db_fault e (ops s) = Some why ->
  commit e s = (Raise (Error why), tick s).
Proof. intros H. unfold commit. now rewrite H. Qed.

(** ** The daily count endpoint *)

Lemma get_daily_office_count_day (strptime_ymd : string -> option date)
    (e : env) (date_str : option string) (d : date) (s : state) :
  count_day strptime_ymd e date_str = Some d ->
  get_daily_office_count strptime_ymd e date_str s
  = (get_db_connection e ;;
     finally
       (office_count <- execute e (sql_count_office d) ;;
        ret {| dc_date := isoformat d;
               dc_office_count := office_count;
               dc_message := str_int office_count
                             +:+ " employees will be in office today" |})
       close) s.
Proof.
  unfold count_day, get_daily_office_count, truthy. intros H.
  destruct date_str as [str|]; [|now injection H as <-].
  destruct (String.eqb str ""); simpl; [now injection H as <-|].
  unfold bind at 1, try_except. rewrite H. reflexivity.
Qed.

(** X14: a date parameter that is present, not empty and does not parse
    is answered with 400 "Invalid date format" before the database is
    touched; the state is returned as it was. *)
Theorem get_daily_office_count_invalid_date
    (strptime_ymd : string -> option date) (e : env) (str : string)
    (s : state) :
  str <> "" ->
  strptime_ymd str = None ->
  get_daily_office_count strptime_ymd e (Some str) s
  = (Raise (HTTPException 400 "Invalid date format"), s).
Proof.
  intros Hne Hp. unfold get_daily_office_count, truthy.
  apply String.eqb_neq in Hne. rewrite Hne. simpl.
  unfold bind at 1, try_except. now rewrite Hp.
Qed.

Lemma get_daily_office_count_invalid_date_witness :
  get_daily_office_count iso_date monday_noon (Some "tomorrow")
    (fresh tuesday_office)
  = (Raise (HTTPException 400 "Invalid date format"), fresh tuesday_office).
Proof.
  apply (get_daily_office_count_invalid_date iso_date monday_noon
           "tomorrow" (fresh tuesday_office)).
  - discriminate.
  - reflexivity.
Defined.

Lemma get_daily_office_count_run (strptime_ymd : string -> option date)
    (e : env) (date_str : option string) (d : date) (s : state) :
  available e ->
  count_day strptime_ymd e date_str = Some d ->
  get_daily_office_count strptime_ymd e date_str s
  = (Ok {| dc_date := isoformat d;
           dc_office_count := count_office d (attendance (committed s));
           dc_message := str_int (count_office d (attendance (committed s)))
                         +:+ " employees will be in office today" |},
     State (committed s) (committed s) (S (S (ops s))) (log s) (outbox s)).
Proof.
  intros Ha Hd.
  rewrite (get_daily_office_count_day _ _ _ _ _ Hd).
  unfold bind at 1. rewrite get_db_connection_ok by apply Ha.
  unfold finally, bind. rewrite execute_ok by apply Ha. reflexivity.
Qed.

(** X15: with the database calls succeeding, the endpoint answers for the
    day asked for, and for today when the parameter is absent or empty:
    the reply carries that day in ISO form, the number of committed
    records of that day with status "office", and the sentence built from
    that number.  Nothing is written. *)
Theorem get_daily_office_count_ok (strptime_ymd : string -> option date)
    (e : env) (date_str : option string) (d : date) (s : state) :
  available e ->
  count_day strptime_ymd e date_str = Some d ->
  let n := count_office d (attendance (committed s)) in
  get_daily_office_count strptime_ymd e date_str s
  = (Ok {| dc_date := isoformat d;
           dc_office_count := n;
           dc_message := str_int n
                         +:+ " employees will be in office today" |},
     State (committed s) (committed s) (S (S (ops s))) (log s) (outbox s)).
Proof.
  intros Ha Hd. cbv zeta. now apply get_daily_office_count_run.
Qed.

Lemma get_daily_office_count_ok_witness :
  fst (get_daily_office_count iso_date monday_noon (Some "2024-06-11")
         (fresh tuesday_office))
  = Ok {| dc_date := "2024-06-11"; dc_office_count := 3;
          dc_message := "3 employees will be in office today" |}
  /\ fst (get_daily_office_count iso_date monday_noon (Some "")
            (fresh tuesday_office))
     = Ok {| dc_date := "2024-06-10"; dc_office_count := 0;
             dc_message := "0 employees will be in office today" |}.
Proof.
  split.
  - rewrite (get_daily_office_count_ok iso_date monday_noon
               (Some "2024-06-11") (Date 2024 6 11) (fresh tuesday_office)).
    + reflexivity.
    + apply available_no_fault; reflexivity.
    + reflexivity.
  - reflexivity.
Defined.

(** X16: the daily count never writes and never sends mail: whatever the
    parameter, the clock and the database do, the committed data and the
    outbox are those from before the call. *)
Theorem get_daily_office_count_read_only
    (strptime_ymd : string -> option date) (e : env)
    (date_str : option string) (s : state) :
  let s' := snd (get_daily_office_count strptime_ymd e date_str s) in
  committed s' = committed s /\ outbox s' = outbox s.
Proof.
  cbv zeta.
  destruct (count_day strptime_ymd e date_str) as [d|] eqn:Hd.
  - rewrite (get_daily_office_count_day _ _ _ _ _ Hd).
    unfold bind, finally.
    destruct (db_fault e (ops s)) as [w0|] eqn:H0.
    { rewrite (get_db_connection_fault _ _ _ H0). simpl. auto. }
    rewrite get_db_connection_ok by exact H0.
    destruct (db_fault e (S (ops s))) as [w1|] eqn:H1.
    { rewrite execute_fault with (why := w1) by exact H1. simpl. auto. }
    rewrite execute_ok by exact H1. simpl. auto.
  - unfold count_day in Hd. destruct date_str as [str|]; [|discriminate].
    destruct (String.eqb str "") eqn:E; [discriminate|].
    unfold get_daily_office_count, truthy. rewrite E. simpl.
    unfold bind, try_except. rewrite Hd. simpl. auto.
Qed.

Lemma count_office_after_upsert_new (d' : date) (ts u : Z) (st : string)
    (t : list attendance_row) :
  rows_for u d' t = [] ->
  count_office d' (upsert_attendance ts u d' st t)
  = count_office d' t + (if String.eqb st "office" then 1 else 0).
Proof.
  intros Hnew. unfold upsert_attendance.
  destruct (existsb (same_key u d') t) eqn:E.
  - now apply rows_for_some in E.
  - rewrite count_office_app, count_office_cons. simpl.
    rewrite (proj2 (date_eqb_eq d' d') eq_refl). simpl.
    change (count_office d' []) with 0. lia.
Qed.

(** X17: the count in the chef's mail is the count the endpoint shows.  On
    a working day with the database calls succeeding, every entry a run
    commits carries the number that the daily count endpoint, asked without
    a date, reports on the same data; and there is one such entry per
    active chef. *)
Theorem send_chef_notification_count_is_daily_count
    (strptime_ymd : string -> option date) (e : env) (s : state) :
  is_weekend (today e) = false ->
  available e ->
  exists reply new,
    fst (get_daily_office_count strptime_ymd e None s) = Ok reply
    /\ notifications (committed (snd (send_chef_notification e s)))
       = notifications (committed s) ++ new
    /\ length new = length (active_chefs (users (committed s)))
    /\ Forall (fun r => n_office_count r = dc_office_count reply) new.
Proof.
  intros Hw Ha.
  rewrite (get_daily_office_count_run strptime_ymd e None (today e) s Ha
             eq_refl).
  rewrite send_chef_notification_reads by (auto; intros; apply Ha).
  eexists _, (entries e (subject_of (today e))
                (body_template_of (today e) (now e)
                   (count_office (today e) (attendance (committed s))))
                (count_office (today e) (attendance (committed s)))
                (length (outbox s)) (active_chefs (users (committed s)))).
  split; [reflexivity|]. simpl.
  assert (forall k cs,
    length (entries e (subject_of (today e))
              (body_template_of (today e) (now e)
                 (count_office (today e) (attendance (committed s))))
              (count_office (today e) (attendance (committed s))) k cs)
    = length cs) as Hlen.
  { intros k cs; revert k. induction cs as [|c cs IH]; intros k; simpl;
      [reflexivity | now rewrite IH]. }
  split; [|split; [apply Hlen|]].
  - destruct (active_chefs (users (committed s))) as [|c cs] eqn:E.
    + simpl. now rewrite app_nil_r.
    + now rewrite deliver_ok by (intros; apply Ha).
  - eapply Forall_impl; [apply entries_same_count_and_body|].
    intros r [Hc _]. exact Hc.
Qed.

Lemma send_chef_notification_count_is_daily_count_witness :
  exists reply new,
    fst (get_daily_office_count iso_date
           (monday_run (Some "xkeysib") no_fault) None (fresh three_chefs))
    = Ok reply
    /\ notifications (committed (snd (send_chef_notification
         (monday_run (Some "xkeysib") no_fault) (fresh three_chefs))))
       = notifications (committed (fresh three_chefs)) ++ new
    /\ length new = 3%nat
    /\ Forall (fun r => n_office_count r = dc_office_count reply) new.
Proof.
  apply (send_chef_notification_count_is_daily_count iso_date
           (monday_run (Some "xkeysib") no_fault) (fresh three_chefs)).
  - reflexivity.
  - apply available_no_fault; reflexivity.
Defined.

(** X18: marking then counting.  After a successful submission that ended
    up on day d' for a user who had no record for that day, the daily
    count for d' is the count from before plus one if the submitted status
    is "office", and unchanged otherwise. *)
Theorem mark_then_daily_count (strptime_ymd : string -> option date)
    (e e' : env) (req : AttendanceRequest) (u : Z) (d' : date)
    (msg : string) (date_str : option string) (s : state) :
  marked strptime_ymd e req u d' msg s ->
  rows_for u d' (attendance (committed s)) = [] ->
  available e' ->
  count_day strptime_ymd e' date_str = Some d' ->
  let n := count_office d' (attendance (committed s))
           + (if String.eqb (req_status req) "office" then 1 else 0) in
  fst (get_daily_office_count strptime_ymd e' date_str
         (snd (mark_attendance strptime_ymd e req u s)))
  = Ok {| dc_date := isoformat d';
          dc_office_count := n;
          dc_message := str_int n
                        +:+ " employees will be in office today" |}.
Proof.
  intros (s1 & Hrun & Hup) Hnew Ha Hd. cbv zeta. rewrite Hrun. simpl.
  rewrite (get_daily_office_count_run _ _ _ _ _ Ha Hd). simpl.
  rewrite Hup, count_office_after_upsert_new by exact Hnew.
  reflexivity.
Qed.

Lemma mark_then_daily_count_witness :
  fst (get_daily_office_count iso_date monday_later (Some "2024-06-11")
         (snd (mark_attendance iso_date monday_noon
                 (office_request "2024-06-11") 5 (fresh tuesday_office))))
  = Ok {| dc_date := "2024-06-11"; dc_office_count := 4;
          dc_message := "4 employees will be in office today" |}.
Proof.
  apply (mark_then_daily_count iso_date monday_noon monday_later
           (office_request "2024-06-11") 5 (Date 2024 6 11) MSG_MARKED
           (Some "2024-06-11") (fresh tuesday_office)).
  - exists (snd (mark_attendance iso_date monday_noon
                   (office_request "2024-06-11") 5 (fresh tuesday_office))).
    split; vm_compute; reflexivity.
  - reflexivity.
  - apply available_no_fault; reflexivity.
  - reflexivity.
Defined.

(** ** The attendance query: composition and errors *)

Lemma filter_Permutation_bool {A} (f : A -> bool) (l l' : list A) :
  l ≡ₚ l' -> List.filter f l ≡ₚ List.filter f l'.
Proof.
  induction 1 as [|x l l' _ IH|x y l|l l' l'' _ IH1 _ IH2]; simpl.
  - constructor.
  - destruct (f x); [now constructor | exact IH].
  - destruct (f x), (f y); try reflexivity. constructor.
  - now transitivity (List.filter f l').
Qed.

Lemma rows_for_of_user (sql_date : string -> option date) (u : Z)
    (d : date) (t : list attendance_row) :
  rows_for u d (List.filter (row_matches sql_date [UserIdEq u]) t)
  = rows_for u d t.
Proof.
  unfold rows_for. induction t as [|r t IH]; simpl; [reflexivity|].
  rewrite andb_true_r.
  destruct (a_user_id r =? u) eqn:Eu; simpl.
  - now rewrite IH.
  - rewrite IH. unfold same_key at 2. now rewrite Eu.
Qed.

(** X19: marking then querying.  After a successful submission that ended
    up on day d', on a store with at most one record for that user and
    day, the user's full history (no bounds) holds exactly one record for
    d', and it carries the submitted status and the timestamp of that
    submission. *)
Theorem mark_then_query (strptime_ymd sql_date : string -> option date)
    (e e' : env) (req : AttendanceRequest) (u : Z) (d' : date)
    (msg : string) (s : state) :
  marked strptime_ymd e req u d' msg s ->
  (length (rows_for u d' (attendance (committed s))) <= 1)%nat ->
  available e' ->
  exists rows,
    fst (get_user_attendance sql_date e' u None None
           (snd (mark_attendance strptime_ymd e req u s))) = Ok rows
    /\ rows_for u d' rows
       = [AttendanceRow u d' (req_status req) (CURRENT_TIMESTAMP e)].
Proof.
  intros (s1 & Hrun & Hup) Hlen Ha. rewrite Hrun. simpl.
  rewrite get_user_attendance_query by (exact Ha || reflexivity).
  eexists; split; [reflexivity|].
  assert (rows_for u d'
            (merge_sort date_desc
               (List.filter (row_matches sql_date (query_of u None None))
                  (attendance (committed s1))))
          ≡ₚ [AttendanceRow u d' (req_status req) (CURRENT_TIMESTAMP e)])
    as Hperm.
  { unfold rows_for at 1.
    rewrite (filter_Permutation_bool _ _ _ (merge_sort_Permutation _ _)).
    fold (rows_for u d'
            (List.filter (row_matches sql_date (query_of u None None))
               (attendance (committed s1)))).
    change (query_of u None None) with [UserIdEq u].
    rewrite rows_for_of_user, Hup.
    now rewrite (upsert_attendance_rows_for _ _ _ _ _ Hlen). }
  symmetry in Hperm. now apply Permutation_length_1_inv in Hperm.
Qed.

Lemma mark_then_query_witness :
  exists rows,
    fst (get_user_attendance iso_date monday_later 1 None None
           (snd (mark_attendance iso_date monday_noon
                   {| req_date := "2024-06-11"; req_status := "leave" |} 1
                   (fresh tuesday_office)))) = Ok rows
    /\ rows_for 1 (Date 2024 6 11) rows
       = [AttendanceRow 1 (Date 2024 6 11) "leave" 1718020800].
Proof.
  apply (mark_then_query iso_date iso_date monday_noon monday_later
           {| req_date := "2024-06-11"; req_status := "leave" |} 1
           (Date 2024 6 11) MSG_MARKED (fresh tuesday_office)).
  - exists (snd (mark_attendance iso_date monday_noon
                   {| req_date := "2024-06-11"; req_status := "leave" |} 1
                   (fresh tuesday_office))).
    split; vm_compute; reflexivity.
  - simpl; lia.
  - apply available_no_fault; reflexivity.
Defined.

(** X20: the attendance query never writes and never sends mail: whatever
    the bounds, the clock and the database do, the committed data and the
    outbox are those from before the call. *)
Theorem get_user_attendance_read_only (sql_date : string -> option date)
    (e : env) (u : Z) (start_date end_date : option string) (s : state) :
  let s' := snd (get_user_attendance sql_date e u start_date end_date s) in
  committed s' = committed s /\ outbox s' = outbox s.
Proof.
  cbv zeta. unfold get_user_attendance, bind, finally.
  destruct (db_fault e (ops s)) as [w0|] eqn:H0.
  { rewrite (get_db_connection_fault _ _ _ H0). simpl. auto. }
  rewrite get_db_connection_ok by exact H0.
  destruct (db_fault e (S (ops s))) as [w1|] eqn:H1.
  { rewrite execute_fault with (why := w1) by exact H1. simpl. auto. }
  rewrite execute_ok by exact H1. unfold sql_select_attendance.
  destruct (forallb (well_formed sql_date) _); simpl; auto.
Qed.

(** X21: when the statement of the query fails, the database error leaves
    the handler as it is, uncaught: unlike a submission, the query has no
    handler that turns it into an HTTP error.  The connection is still
    closed and nothing is logged. *)
Theorem get_user_attendance_statement_failure
    (sql_date : string -> option date) (e : env) (u : Z)
    (start_date end_date : option string) (s : state) (why : string) :
  db_fault e (ops s) = None ->
  db_fault e (S (ops s)) = Some why ->
  get_user_attendance sql_date e u start_date end_date s
  = (Raise (Error why),
     State (committed s) (committed s) (S (S (ops s))) (log s) (outbox s)).
Proof.
  intros H0 H1. unfold get_user_attendance, bind, finally.
  rewrite get_db_connection_ok by exact H0.
  rewrite execute_fault with (why := why) by exact H1. reflexivity.
Qed.

Lemma get_user_attendance_statement_failure_witness :
  get_user_attendance iso_date (monday_noon_with statement_fails) 1
    (Some "2024-06-01") None (fresh tuesday_office)
  = (Raise (Error "Lock wait timeout exceeded"),
     State tuesday_office tuesday_office 2 [] []).
Proof.
  apply (get_user_attendance_statement_failure iso_date
           (monday_noon_with statement_fails) 1 (Some "2024-06-01") None
           (fresh tuesday_office) "Lock wait timeout exceeded");
    reflexivity.
Defined.

(** ** The notification run: what it never does *)

(** X22: sending one mail never raises and never touches the database,
    whatever the gateway does, an exception of the HTTP call included.  It
    answers true exactly when the key is configured and the gateway replied
    with status 200, 201 or 202; it posts once with a configured key and
    not at all without one. *)
Theorem send_email_notification_contract (e : env)
    (to subject body : string) (s : state) :
  exists sent s',
    send_email_notification e to subject body s = (Ok sent, s')
    /\ committed s' = committed s /\ session s' = session s
    /\ ops s' = ops s
    /\ outbox s'
       = outbox s ++ (if configured e then [Mail to subject body] else [])
    /\ (sent = true
        <-> configured e = true
            /\ exists code text,
                 gateway e (length (outbox s)) (Mail to subject body)
                 = Response code text
                 /\ (code = 200 \/ code = 201 \/ code = 202)).
Proof.
  rewrite send_email_notification_spec. eexists _, _.
  split; [reflexivity|]. simpl. repeat split; try reflexivity.
  - unfold delivered in H. now apply andb_true_iff in H as [H _].
  - unfold delivered in H. apply andb_true_iff in H as [_ H].
    destruct (gateway e (length (outbox s)) (Mail to subject body))
      as [code text|]; [|discriminate].
    exists code, text. split; [reflexivity|]. simpl in H.
    rewrite !orb_true_iff, !Z.eqb_eq in H. intuition discriminate.
  - intros (Hc & code & text & Hg & Hcode). unfold delivered.
    rewrite Hc, Hg. simpl. rewrite !orb_true_iff, !Z.eqb_eq. intuition.
Qed.

(** X23: when the connection cannot be opened on a working day, the run
    does not swallow the failure: the error is logged and the exception
    leaves the job, since the connection is opened outside its [try].
    Nothing is posted and nothing is written. *)
Theorem send_chef_notification_connection_failure (e : env) (s : state)
    (why : string) :
  is_weekend (today e) = false ->
  db_fault e (ops s) = Some why ->
  send_chef_notification e s
  = (Raise (HTTPException 500 "Database connection failed"),
     State (committed s) (session s) (S (ops s))
       (log s ++ [(ERROR, "Database connection error: " +:+ why)])
       (outbox s)).
Proof.
  intros Hw H0. unfold send_chef_notification. rewrite Hw.
  unfold bind at 1. now rewrite (get_db_connection_fault _ _ _ H0).
Qed.

Lemma send_chef_notification_connection_failure_witness :
  send_chef_notification (monday_run (Some "xkeysib") connection_refused)
    (fresh three_chefs)
  = (Raise (HTTPException 500 "Database connection failed"),
     State three_chefs three_chefs 1
       [(ERROR, "Database connection error: Can't connect to MySQL server")]
       []).
Proof.
  apply (send_chef_notification_connection_failure
           (monday_run (Some "xkeysib") connection_refused)
           (fresh three_chefs) "Can't connect to MySQL server");
    reflexivity.
Defined.

(** X24: when one of the two reads of the run fails (the count or the
    list of chefs), the failure is logged and swallowed: the run ends
    normally, no mail has been sent and nothing is written. *)
Theorem send_chef_notification_read_failure (e : env) (s : state)
    (why : string) :
  is_weekend (today e) = false ->
  db_fault e (ops s) = None ->
  db_fault e (S (ops s)) = Some why
  \/ (db_fault e (S (ops s)) = None /\ db_fault e (S (S (ops s))) = Some why) ->
  exists s',
    send_chef_notification e s = (Ok tt, s')
    /\ committed s' = committed s
    /\ outbox s' = outbox s
    /\ log s'
       = log s ++ [(ERROR, "Failed to send chef notifications: " +:+ why)].
Proof.
  intros Hw H0 Hf. unfold send_chef_notification. rewrite Hw.
  unfold bind at 1. rewrite get_db_connection_ok by exact H0.
  unfold finally, try_except. unfold bind at 1.
  destruct Hf as [H1 | [H1 H2]].
  - rewrite execute_fault with (why := why) by exact H1.
    eexists; repeat split.
  - rewrite execute_ok by exact H1. simpl fst. simpl snd.
    unfold bind at 1.
    rewrite execute_fault with (why := why) by exact H2.
    eexists; repeat split.
Qed.

Lemma send_chef_notification_read_failure_witness :
  exists s',
    send_chef_notification (monday_run (Some "xkeysib") statement_fails)
      (fresh three_chefs) = (Ok tt, s')
    /\ outbox s' = []
    /\ log s'
       = [(ERROR,
           "Failed to send chef notifications: Lock wait timeout exceeded")].
Proof.
  destruct (send_chef_notification_read_failure
              (monday_run (Some "xkeysib") statement_fails)
              (fresh three_chefs) "Lock wait timeout exceeded")
    as (s' & Hrun & _ & Ho & Hl).
  - reflexivity.
  - reflexivity.
  - left; reflexivity.
  - exists s'. auto.
Defined.

(** X25: a run never changes the attendance records or the users,
    whatever the clock, the gateway and the database do. *)
Theorem send_chef_notification_keeps_attendance_and_users (e : env)
    (s : state) :
  let s' := snd (send_chef_notification e s) in
  attendance (committed s') = attendance (committed s)
  /\ users (committed s') = users (committed s).
Proof.
  cbv zeta. destruct (send_chef_notification_committed e s) as [H|H];
    rewrite H; auto.
Qed.

Lemma notify_chef_fault_state (e : env) (subject body : string) (count : Z)
    (chef : string) (s : state) (why : string) :
  db_fault e (ops s) = Some why ->
  notify_chef e subject body count chef s
  = (Raise (Error why),
     State (committed s) (session s) (S (ops s))
       (log s ++ [send_log e (length (outbox s)) (Mail chef subject body)])
       (outbox s ++ posts e subject body [chef])).
Proof.
  intros H. unfold notify_chef, bind. rewrite send_email_notification_spec.
  now rewrite execute_fault with (why := why) by exact H.
Qed.

(** Whatever fails, the loop posts to a prefix of the recipients, once
    each and in order. *)
Lemma for_each_notify_posts (e : env) (subject body : string) (count : Z)
    (chefs : list string) :
  forall s,
    exists j,
      outbox (snd (for_each chefs (notify_chef e subject body count) s))
      = outbox s ++ posts e subject body (take j chefs).
Proof.
  induction chefs as [|c cs IH]; intros s.
  - exists 0%nat. simpl. unfold posts.
    destruct (configured e); now rewrite app_nil_r.
  - simpl for_each. unfold bind.
    destruct (db_fault e (ops s)) as [w|] eqn:Hf.
    + rewrite (notify_chef_fault_state _ _ _ _ _ _ _ Hf). exists 1%nat.
      simpl. now rewrite take_0.
    + rewrite (notify_chef_ok _ _ _ _ _ _ Hf).
      destruct (IH (State (committed s)
                      (add_notifications (session s)
                         [entry e subject body count (length (outbox s)) c])
                      (S (ops s))
                      (log s ++ [send_log e (length (outbox s))
                                   (Mail c subject body)])
                      (outbox s ++ posts e subject body [c]))) as [j Hj].
      exists (S j). rewrite Hj. simpl.
      now rewrite (posts_cons e subject body c (take j cs)), app_assoc.
Qed.

Lemma deliver_outbox (e : env) (chefs : list string) (count : Z)
    (s : state) :
  outbox (snd (deliver e chefs count s))
  = outbox (snd (for_each chefs
                   (notify_chef e (subject_of (today e))
                      (body_template_of (today e) (now e) count) count) s)).
Proof.
  unfold deliver, finally, try_except. unfold bind at 1.
  destruct (for_each chefs _ s) as [[[]|ex] s4]; simpl; [|reflexivity].
  unfold bind, commit. destruct (db_fault e (ops s4)); reflexivity.
Qed.

Lemma active_chefs_are_active (t : list user_row) (c : string) :
  In c (active_chefs t) -> is_active_chef t c.
Proof.
  unfold active_chefs, is_active_chef. intros H.
  apply in_map_iff in H as (row & He & Hin).
  apply filter_In in Hin as [Hin Hp].
  apply andb_true_iff in Hp as [Hr Ha].
  exists row. repeat split; auto.
  - now apply String.eqb_eq.
  - now apply Z.eqb_eq.
Qed.

Lemma In_take {A} (x : A) (j : nat) (l : list A) :
  In x (take j l) -> In x l.
Proof.
  revert j. induction l as [|y l IH]; intros [|j]; simpl; try tauto.
  intros [->|H]; [now left | right; eauto].
Qed.

(** X26: who gets mail.  Whatever the clock, the gateway and the database
    do, the mails of a run go, once each and in order, to a leading part
    of the list of active chefs read at the start: every recipient is the
    address of a user with role chef and active flag 1, every mail carries
    the run's one subject and body, and on a weekend or without a
    configured key no mail is sent at all. *)
Theorem send_chef_notification_recipients (e : env) (s : state) :
  let chefs := active_chefs (users (committed s)) in
  let subject := subject_of (today e) in
  let body := body_template_of (today e) (now e)
                (count_office (today e) (attendance (committed s))) in
  exists j,
    outbox (snd (send_chef_notification e s))
    = outbox s ++ posts e subject body (take j chefs)
    /\ Forall (fun m => is_active_chef (users (committed s)) (m_to m))
              (posts e subject body (take j chefs))
    /\ (is_weekend (today e) = true \/ configured e = false ->
        outbox (snd (send_chef_notification e s)) = outbox s).
Proof.
  cbv zeta.
  assert (forall j,
    Forall (fun m => is_active_chef (users (committed s)) (m_to m))
      (posts e (subject_of (today e))
         (body_template_of (today e) (now e)
            (count_office (today e) (attendance (committed s))))
         (take j (active_chefs (users (committed s)))))) as Hact.
  { intros j. unfold posts. destruct (configured e); [|constructor].
    apply List.Forall_forall. intros m Hm.
    apply in_map_iff in Hm as (c & <- & Hc). simpl.
    apply active_chefs_are_active. now apply In_take in Hc. }
  assert (forall j,
    configured e = false ->
    posts e (subject_of (today e))
      (body_template_of (today e) (now e)
         (count_office (today e) (attendance (committed s))))
      (take j (active_chefs (users (committed s)))) = []) as Hnokey.
  { intros j Hc. unfold posts. now rewrite Hc. }
  assert (forall s',
    outbox s' = outbox s ->
    exists j,
      outbox s'
      = outbox s ++ posts e (subject_of (today e))
          (body_template_of (today e) (now e)
             (count_office (today e) (attendance (committed s))))
          (take j (active_chefs (users (committed s))))
      /\ Forall (fun m => is_active_chef (users (committed s)) (m_to m))
           (posts e (subject_of (today e))
              (body_template_of (today e) (now e)
                 (count_office (today e) (attendance (committed s))))
              (take j (active_chefs (users (committed s)))))
      /\ (is_weekend (today e) = true \/ configured e = false ->
          outbox s' = outbox s)) as Hnone.
  { intros s' Ho. exists 0%nat. split; [|split; [apply Hact | auto]].
    rewrite take_0. unfold posts.
    destruct (configured e); now rewrite Ho, app_nil_r. }
  destruct (is_weekend (today e)) eqn:Hw.
  { apply Hnone. unfold send_chef_notification. now rewrite Hw. }
  destruct (db_fault e (ops s)) as [w0|] eqn:H0.
  { apply Hnone. unfold send_chef_notification. rewrite Hw.
    unfold bind at 1. now rewrite (get_db_connection_fault _ _ _ H0). }
  destruct (db_fault e (S (ops s))) as [w1|] eqn:H1.
  { apply Hnone. unfold send_chef_notification. rewrite Hw.
    unfold bind at 1. rewrite get_db_connection_ok by exact H0.
    unfold finally, try_except. unfold bind at 1.
    now rewrite execute_fault with (why := w1) by exact H1. }
  destruct (db_fault e (S (S (ops s)))) as [w2|] eqn:H2.
  { apply Hnone. unfold send_chef_notification. rewrite Hw.
    unfold bind at 1. rewrite get_db_connection_ok by exact H0.
    unfold finally, try_except. unfold bind at 1.
    rewrite execute_ok by exact H1. simpl fst. simpl snd.
    unfold bind at 1.
    now rewrite execute_fault with (why := w2) by exact H2. }
  rewrite send_chef_notification_reads; [| exact Hw |].
  2:{ intros k Hk. destruct k as [|[|[|k]]]; [| | |lia].
      - now rewrite Nat.add_0_r.
      - now replace (ops s + 1)%nat with (S (ops s)) by lia.
      - now replace (ops s + 2)%nat with (S (S (ops s))) by lia. }
  destruct (active_chefs (users (committed s))) as [|c cs] eqn:E.
  { rewrite <- E in *. now apply Hnone. }
  rewrite <- E in *. rewrite deliver_outbox.
  destruct (for_each_notify_posts e (subject_of (today e))
              (body_template_of (today e) (now e)
                 (count_office (today e) (attendance (committed s))))
              (count_office (today e) (attendance (committed s)))
              (active_chefs (users (committed s)))
              (State (committed s) (committed s) (ops s + 3) (log s)
                 (outbox s))) as [j Hj].
  exists j. rewrite Hj. simpl. split; [reflexivity|]. split; [apply Hact|].
  intros [Hwe | Hc]; [discriminate|].
  now rewrite (Hnokey j Hc), app_nil_r.
Qed.

(** X27: with no active chef the run stops after its two reads: it ends
    normally with the warning "No active chefs found for notification",
    sends nothing, writes nothing and does not even call commit (three
    database calls in all). *)
Theorem send_chef_notification_no_chefs (e : env) (s : state) :
  is_weekend (today e) = false ->
  (forall k, (k < 3)%nat -> db_fault e (ops s + k) = None) ->
  active_chefs (users (committed s)) = [] ->
  send_chef_notification e s
  = (Ok tt,
     State (committed s) (committed s) (ops s + 3)
       (log s ++ [(WARNING, "No active chefs found for notification")])
       (outbox s)).
Proof.
  intros Hw Hok Hnone.
  rewrite send_chef_notification_reads by assumption. now rewrite Hnone.
Qed.

Lemma send_chef_notification_no_chefs_witness :
  send_chef_notification (monday_run (Some "xkeysib") no_fault)
    (fresh tuesday_office)
  = (Ok tt,
     State tuesday_office tuesday_office 3
       [(WARNING, "No active chefs found for notification")] []).
Proof.
  apply (send_chef_notification_no_chefs
           (monday_run (Some "xkeysib") no_fault) (fresh tuesday_office));
    reflexivity.
Defined.

(** ** One count for the whole run *)

Lemma entries_length (e : env) (subject body : string) (count : Z)
    (chefs : list string) :
  forall k, length (entries e subject body count k chefs) = length chefs.
Proof.
  induction chefs as [|c cs IH]; intros k; simpl;
    [reflexivity | now rewrite IH].
Qed.

(** When the count query fails, the run ends without a mail or an entry:
    the count is read before the loop is entered. *)
Lemma send_chef_notification_count_read_fault (e : env) (s : state)
    (why : string) :
  is_weekend (today e) = false ->
  db_fault e (ops s) = None ->
  db_fault e (S (ops s)) = Some why ->
  send_chef_notification e s
  = (Ok tt,
     State (committed s) (committed s) (S (S (ops s)))
       (log s ++ [(ERROR, "Failed to send chef notifications: " +:+ why)])
       (outbox s)).
Proof.
  intros Hw H0 H1. unfold send_chef_notification. rewrite Hw.
  unfold bind at 1. rewrite get_db_connection_ok by exact H0.
  unfold finally, try_except. unfold bind at 1.
  now rewrite execute_fault with (why := why) by exact H1.
Qed.

(** The whole run when nothing fails in the database: the connection, one
    count query, one query for the chefs, one insert per chef and, when
    there is a chef, one commit. *)
Lemma send_chef_notification_run (e : env) (s : state) :
  is_weekend (today e) = false ->
  available e ->
  let s' := snd (send_chef_notification e s) in
  let chefs := active_chefs (users (committed s)) in
  let count := count_office (today e) (attendance (committed s)) in
  notifications (committed s')
  = notifications (committed s)
    ++ entries e (subject_of (today e))
         (body_template_of (today e) (now e) count) count
         (length (outbox s)) chefs
  /\ ops s'
     = (ops s + 3
        + match chefs with [] => 0 | _ :: _ => S (length chefs) end)%nat.
Proof.
  intros Hw Ha. cbv zeta.
  rewrite send_chef_notification_reads by (auto; intros; apply Ha).
  destruct (active_chefs (users (committed s))) as [|c cs] eqn:E.
  - simpl. rewrite app_nil_r. split; [reflexivity | lia].
  - rewrite deliver_ok by (intros; apply Ha). simpl.
    split; [reflexivity | lia].
Qed.

(** C10: the office count is the number of committed office records of
    today at the start of the run, read by one query that precedes the
    loop, and every entry of the run carries it together with the one
    message body built from it.
    - Whatever the gateway and the database do, the entries the run adds
      to the committed log all carry that count and that body.
    - If the count query fails, the run is over before any mail is sent or
      any entry written: the read comes before the loop.
    - On a working day with the database calls succeeding, whichever sends
      fail, the run adds exactly one such entry per active chef and makes
      3 database calls plus, when there is a chef, one insert per chef and
      one commit: the count is queried once, not once per recipient. *)
Theorem send_chef_notification_same_count_and_body (e : env) (s : state) :
  let s' := snd (send_chef_notification e s) in
  let chefs := active_chefs (users (committed s)) in
  let count := count_office (today e) (attendance (committed s)) in
  let subject := subject_of (today e) in
  let body := body_template_of (today e) (now e) count in
  (exists new,
     notifications (committed s') = notifications (committed s) ++ new
     /\ Forall (fun r => n_office_count r = count /\ n_content r = body) new)
  /\ (is_weekend (today e) = false ->
      db_fault e (ops s) = None ->
      forall why,
        db_fault e (S (ops s)) = Some why ->
        outbox s' = outbox s
        /\ notifications (committed s') = notifications (committed s))
  /\ (is_weekend (today e) = false ->
      available e ->
      notifications (committed s')
      = notifications (committed s)
        ++ entries e subject body count (length (outbox s)) chefs
      /\ length (entries e subject body count (length (outbox s)) chefs)
         = length chefs
      /\ Forall (fun r => n_office_count r = count /\ n_content r = body)
           (entries e subject body count (length (outbox s)) chefs)
      /\ ops s'
         = (ops s + 3
            + match chefs with [] => 0 | _ :: _ => S (length chefs) end)%nat).
Proof.
  cbv zeta. split; [|split].
  - destruct (send_chef_notification_committed e s) as [H|H]; rewrite H.
    + exists []. split; [now rewrite app_nil_r | constructor].
    + eexists; split; [reflexivity|]. apply entries_same_count_and_body.
  - intros Hw H0 why H1.
    now rewrite (send_chef_notification_count_read_fault e s why Hw H0 H1).
  - intros Hw Ha.
    destruct (send_chef_notification_run e s Hw Ha) as [Hn Ho].
    split; [exact Hn|]. split; [apply entries_length|].
    split; [apply entries_same_count_and_body | exact Ho].
Qed.

(** C10, on an example: two employees are in the office on Monday
    2024-06-10, three chefs are active and the gateway refuses one of
    them.  The three entries carry the count 2, and the run has made 7
    database calls. *)
Lemma send_chef_notification_same_count_and_body_witness :
  let r := send_chef_notification (monday_run (Some "xkeysib") no_fault)
             (fresh monday_kitchen) in
  map (fun n => (n_recipient_email n, n_office_count n, n_status n))
      (notifications (committed (snd r)))
  = [("anna@kitchen", 2, "sent"); ("ben@kitchen", 2, "failed");
     ("cal@kitchen", 2, "sent")]
  /\ ops (snd r) = 7%nat.
Proof.
  cbv zeta.
  destruct (send_chef_notification_same_count_and_body
              (monday_run (Some "xkeysib") no_fault) (fresh monday_kitchen))
    as (_ & _ & H).
  destruct H as (Hn & _ & _ & Ho).
  - reflexivity.
  - apply available_no_fault; reflexivity.
  - rewrite Hn, Ho. split; reflexivity.
Defined.
